(** * Device Sync Client of the PenTest control panel

    A shallow embedding of the client-side synchronisation logic of the
    control panel script: the bounded activity log, the connectivity
    probe, the per-device status merge (bulk and single), and the command
    dispatcher with its try / catch / finally life cycle.

    Conventions of the embedding.
    - The page's module-level variables ([masterStatus], [deviceData],
      [logs]) and the parts of the host the script touches (class lists
      of DOM elements, pending timers, notification elements, requests
      handed to [fetch]) are the fields of one [State] record, threaded
      explicitly through every function.
    - An [async] function that touches no state between its [await]s
      and the end is one step: what the network answers to its [fetch] is
      an argument of the function. [sendDeviceCommand] reads its device
      again after the [await]s, so it comes in two steps, one up to the
      [fetch] and one from the moment the request has settled; other
      operations may run in between.
    - [deviceData] is an object used as a map whose [Object.entries]
      order is observable, so it is an association list in insertion
      order. [lookupDevice] reads its own keys, which is what the loop
      over [Object.entries] needs; a read [deviceData[deviceType]] on a
      caller's string (command dispatcher, single refresh) goes on to
      the members inherited from [Object.prototype].
    - Parsed JSON is typed after the shapes the script reads: a body is
      either [null] or an object whose fields may be absent.
    - Functions that only repaint the page (updateMasterStatus,
      updateOverviewDisplay, updateLogsDisplay, ...) do not touch the
      state modelled here and are left out. *)

From stdpp Require Import gmap strings list pretty.

Open Scope string_scope.

(** ** Configuration *)

Record Config := {
  masterDeviceUrl : string;
  updateInterval : N;
  logMaxEntries : nat;
  authToken : option string;
  timeout : N
}.

Definition CONFIG : Config := {|
  masterDeviceUrl := "http://localhost:8080";
  updateInterval := 5000%N;
  logMaxEntries := 100;
  authToken := None;
  timeout := 10000%N
|}.

(** ** Data model *)

Inductive LogType := info | success | warning | error.

Inductive ConnectionState := connected | disconnected.

Record InstanceRecord := {
  inst_id : string;
  inst_name : option string;
  inst_status : string;
  inst_details : option string
}.

(** One entry of [deviceData]. [lastSeen] is [None] for [null]; [extra]
    holds the properties that [Object.assign] adds beyond the declared
    ones. *)
Record DeviceRecord := {
  id : string;
  name : string;
  status : string;
  endpoint : string;
  type : string;
  instances : list InstanceRecord;
  lastSeen : option string;
  capabilities : list string;
  extra : list (string * string)
}.

(** [timestamp] and [id] of an entry are read from the wall clock (and
    [Math.random]); the model reads both from the counter [logSeq] of the
    state, which counts the entries recorded so far. *)
Record LogEntry := {
  timestamp : nat;
  message : string;
  log_type : LogType;
  log_id : nat
}.

(** The body of a request handed to [fetch] (the timestamp field of the
    body is left out). The [device_id] is [None] when [device.id] is
    [undefined]: [JSON.stringify] drops the field. *)
Inductive RequestBody :=
| HealthBody
| StatusBody (device_id : option string)
| CommandBody (command : string) (parameters : list (string * string))
              (device_id : option string).

Record Request := {
  req_method : string;
  req_url : string;
  req_body : RequestBody
}.

(** A callback registered with [setTimeout]. *)
Inductive Timer :=
| RefreshTimer (deviceType : string) (delay : N)
| NotificationTimer (text : string) (delay : N)
| AbortTimer (delay : N).

Record State := {
  masterStatus : ConnectionState;
  deviceData : list (string * DeviceRecord);
  logs : list LogEntry;
  logSeq : nat;
  dom : gmap string (gset string);
  requests : list Request;
  timers : list Timer;
  notifications : list (string * LogType)
}.

Definition set_masterStatus (v : ConnectionState) (st : State) : State :=
  {| masterStatus := v; deviceData := deviceData st; logs := logs st;
     logSeq := logSeq st; dom := dom st; requests := requests st;
     timers := timers st; notifications := notifications st |}.

Definition set_deviceData (v : list (string * DeviceRecord)) (st : State) : State :=
  {| masterStatus := masterStatus st; deviceData := v; logs := logs st;
     logSeq := logSeq st; dom := dom st; requests := requests st;
     timers := timers st; notifications := notifications st |}.

Definition set_logs (v : list LogEntry) (n : nat) (st : State) : State :=
  {| masterStatus := masterStatus st; deviceData := deviceData st; logs := v;
     logSeq := n; dom := dom st; requests := requests st;
     timers := timers st; notifications := notifications st |}.

Definition set_dom (v : gmap string (gset string)) (st : State) : State :=
  {| masterStatus := masterStatus st; deviceData := deviceData st; logs := logs st;
     logSeq := logSeq st; dom := v; requests := requests st;
     timers := timers st; notifications := notifications st |}.

Definition set_requests (v : list Request) (st : State) : State :=
  {| masterStatus := masterStatus st; deviceData := deviceData st; logs := logs st;
     logSeq := logSeq st; dom := dom st; requests := v;
     timers := timers st; notifications := notifications st |}.

Definition set_timers (v : list Timer) (st : State) : State :=
  {| masterStatus := masterStatus st; deviceData := deviceData st; logs := logs st;
     logSeq := logSeq st; dom := dom st; requests := requests st;
     timers := v; notifications := notifications st |}.

Definition set_notifications (v : list (string * LogType)) (st : State) : State :=
  {| masterStatus := masterStatus st; deviceData := deviceData st; logs := logs st;
     logSeq := logSeq st; dom := dom st; requests := requests st;
     timers := timers st; notifications := v |}.

(** ** The static registry *)

Definition mkDevice (i n e t : string) (caps : list string) : DeviceRecord :=
  {| id := i; name := n; status := "offline"; endpoint := e; type := t;
     instances := []; lastSeen := None; capabilities := caps; extra := [] |}.

Definition initialDeviceData : list (string * DeviceRecord) :=
  [ ("keylogger",
     mkDevice "device1" "Keylogger" "/keylogger" "keylogger"
       ["start_logging"; "stop_logging"; "download_logs"; "clear_buffer"]);
    ("keystroke_injector",
     mkDevice "device2" "Keystroke Injector" "/keystroke-injector" "keystroke_injector"
       ["inject_payload"; "load_script"; "stop_injection"; "list_payloads"]);
    ("ethernet_tap",
     mkDevice "device3" "Ethernet Tap" "/ethernet-tap" "ethernet_tap"
       ["start_capture"; "stop_capture"; "download_pcap"; "monitor_mode"]);
    ("evil_twin",
     mkDevice "device4" "Evil Twin AP" "/evil-twin" "evil_twin"
       ["start_ap"; "stop_ap"; "view_clients"; "deauth_clients"; "clone_network"]) ].

(** The page as the script finds it: one element per device page. *)
Definition initialDom : gmap string (gset string) :=
  <["device1" := ∅]> (<["device2" := ∅]> (<["device3" := ∅]> (<["device4" := ∅]> ∅))).

Definition initialState : State :=
  {| masterStatus := disconnected; deviceData := initialDeviceData; logs := [];
     logSeq := 0; dom := initialDom; requests := []; timers := [];
     notifications := [] |}.

(** ** Activity log *)

(** [logs.unshift(logEntry)], then the slice when the length exceeds the
    configured capacity. *)
Definition addLog (msg : string) (ty : LogType) (st : State) : State :=
  let logEntry :=
    {| timestamp := logSeq st; message := msg; log_type := ty; log_id := logSeq st |} in
  let unshifted := logEntry :: logs st in
  let limited :=
    if (logMaxEntries CONFIG <? length unshifted)%nat
    then take (logMaxEntries CONFIG) unshifted
    else unshifted in
  set_logs limited (S (logSeq st)) st.

Definition clearLogs (st : State) : State :=
  addLog "Logs cleared by user" info (set_logs [] (logSeq st) st).

(** Appends the notification element, arms its removal timer and logs the
    message. *)
Definition showNotification (msg : string) (ty : LogType) (st : State) : State :=
  let st1 := set_notifications (notifications st ++ [(msg, ty)]) st in
  let st2 := set_timers (timers st1 ++ [NotificationTimer msg 5000%N]) st1 in
  addLog msg ty st2.

(** ** The network, as the script sees it *)

(** What [await response.json()] yields: the parsed body, or the message
    of the error the promise rejects with. *)
Record Response (B : Type) := {
  resp_status : nat;
  statusText : string;
  json : string + B
}.
Arguments resp_status {B} _.
Arguments statusText {B} _.
Arguments json {B} _.

(** [response.ok]: the status is in the range 200-299. *)
Definition ok {B : Type} (response : Response B) : bool :=
  ((200 <=? resp_status response) && (resp_status response <=? 299))%nat.

(** What [await fetch(...)] does: it rejects (network error, abort on
    timeout) with an error message, or resolves with a response. *)
Inductive FetchOutcome (B : Type) :=
| Rejected (error_message : string)
| Resolved (response : Response B).
Arguments Rejected {B} _.
Arguments Resolved {B} _.

(** How a block of statements completes. *)
Inductive Completion (A : Type) :=
| Normal (a : A)
| Throw (error_message : string).
Arguments Normal {A} _.
Arguments Throw {A} _.

Definition fetch (method url : string) (body : RequestBody) (st : State) : State :=
  set_requests
    (requests st ++ [{| req_method := method; req_url := url; req_body := body |}]) st.

(** ** Connectivity prober *)

(** The [try] block of [checkMasterConnection] up to the point where the
    probe is known to have succeeded. *)
Definition healthAttempt (net : FetchOutcome unit) : Completion unit :=
  match net with
  | Rejected m => Throw m
  | Resolved response =>
    if ok response then
      match json response with
      | inl m => Throw m
      | inr data => Normal data
      end
    else
      Throw ("HTTP " +:+ pretty (resp_status response) +:+ ": " +:+ statusText response)
  end.

(** The probe arms a timer that aborts its request after
    [CONFIG.timeout]; a request it aborts is a [Rejected] one.
    [clearTimeout] follows the [await] of the [fetch]: a request that
    resolves takes the timer off the list again, a request that rejects
    skips the line and leaves it pending. *)
Definition checkMasterConnection (net : FetchOutcome unit) (st : State) : State * bool :=
  let st0 := set_timers (timers st ++ [AbortTimer (timeout CONFIG)]) st in
  let st1 := fetch "GET" (masterDeviceUrl CONFIG +:+ "/api/health") HealthBody st0 in
  let st2 :=
    match net with
    | Rejected _ => st1
    | Resolved _ => set_timers (timers st) st1
    end in
  match healthAttempt net with
  | Normal _ =>
    let st3 := set_masterStatus connected st2 in
    (addLog "Master device connection established" success st3, true)
  | Throw m =>
    let st3 := set_masterStatus disconnected st2 in
    (addLog ("Master device connection failed: " +:+ m) error st3, false)
  end.

(** ** Status synchroniser *)

(** One own property of a [device_info] object, as [Object.assign] copies
    it onto a device record. A value carried under the name of a declared
    field has that field's type. *)
Inductive DeviceField :=
| F_id (v : string)
| F_name (v : string)
| F_status (v : string)
| F_endpoint (v : string)
| F_type (v : string)
| F_instances (v : list InstanceRecord)
| F_lastSeen (v : option string)
| F_capabilities (v : list string)
| F_other (key value : string).

(** A parsed status body that is an object: [{status, last_seen?,
    instances?, device_info?}] from the server, [{status, error}] built by
    the script for a failed fetch. An absent field is [None]. *)
Record StatusData := {
  s_status : option string;
  last_seen : option string;
  s_instances : option (list InstanceRecord);
  device_info : option (list DeviceField);
  s_error : option string
}.

(** The element that the per-device request contributes to [results];
    [r_status] is [None] when the body parsed to [null]. *)
Record StatusResult := {
  r_deviceType : string;
  r_status : option StatusData;
  r_success : bool
}.

Definition offlineStatus (reason : string) : StatusData :=
  {| s_status := Some "offline"; last_seen := None; s_instances := None;
     device_info := None; s_error := Some reason |}.

(** [deviceData[deviceType]] for a key that [Object.entries] gave: the
    own properties of the registry. *)
Fixpoint lookupDevice (deviceType : string) (dd : list (string * DeviceRecord))
  : option DeviceRecord :=
  match dd with
  | [] => None
  | (k, d) :: rest => if k =? deviceType then Some d else lookupDevice deviceType rest
  end.

(** [deviceData] is an object literal: a read [deviceData[key]] that
    finds no own key goes on to [Object.prototype]. These are the members
    it finds there, each with the [name] it carries: a function carries
    its name; [__proto__] yields [Object.prototype] itself, an object
    without a [name]. *)
Definition objectPrototype : list (string * option string) :=
  [ ("constructor", Some "Object");
    ("__defineGetter__", Some "__defineGetter__");
    ("__defineSetter__", Some "__defineSetter__");
    ("hasOwnProperty", Some "hasOwnProperty");
    ("__lookupGetter__", Some "__lookupGetter__");
    ("__lookupSetter__", Some "__lookupSetter__");
    ("isPrototypeOf", Some "isPrototypeOf");
    ("propertyIsEnumerable", Some "propertyIsEnumerable");
    ("toString", Some "toString");
    ("valueOf", Some "valueOf");
    ("__proto__", None);
    ("toLocaleString", Some "toLocaleString") ].

Fixpoint inheritedMember (key : string) (members : list (string * option string))
  : option (option string) :=
  match members with
  | [] => None
  | (k, memberName) :: rest =>
    if k =? key then Some memberName else inheritedMember key rest
  end.

(** What a caller reads off the object [deviceData[deviceType]] gave
    it; [None] is [undefined]. *)
Record DeviceView := {
  v_name : option string;
  v_status : option string;
  v_id : option string;
  v_endpoint : option string
}.

Definition viewOf (device : DeviceRecord) : DeviceView :=
  {| v_name := Some (name device); v_status := Some (status device);
     v_id := Some (id device); v_endpoint := Some (endpoint device) |}.

(** An inherited member, as the page starts with it: it has none of the
    fields of a device but, for a function, the name. *)
Definition memberView (memberName : option string) : DeviceView :=
  {| v_name := memberName; v_status := None; v_id := None; v_endpoint := None |}.

(** [deviceData[deviceType]] for a string the caller chose: the own key,
    else the inherited member, else [undefined]. *)
Definition getDevice (deviceType : string) (dd : list (string * DeviceRecord))
  : option DeviceView :=
  match lookupDevice deviceType dd with
  | Some device => Some (viewOf device)
  | None => memberView <$> inheritedMember deviceType objectPrototype
  end.

(** A value inside a template literal, or converted to a string by the
    host as the argument of [getElementById]. *)
Definition show (v : option string) : string := default "undefined" v.

(** [device.status === 'online'] *)
Definition isOnline (device : DeviceView) : bool :=
  match v_status device with
  | Some s => s =? "online"
  | None => false
  end.

(** A write through [deviceData[deviceType]]: the record under the key is
    replaced in place. *)
Fixpoint updateDevice (deviceType : string) (d' : DeviceRecord)
    (dd : list (string * DeviceRecord)) : list (string * DeviceRecord) :=
  match dd with
  | [] => []
  | (k, d) :: rest =>
    if k =? deviceType then (k, d') :: rest
    else (k, d) :: updateDevice deviceType d' rest
  end.

(** [v || d] on a string that may be absent: absent and empty are falsy. *)
Definition orString (v : option string) (d : string) : string :=
  match v with
  | Some s => if s =? "" then d else s
  | None => d
  end.

(** [v || d] where the fallback may itself be [null]. *)
Definition orOptString (v : option string) (d : option string) : option string :=
  match v with
  | Some s => if s =? "" then d else Some s
  | None => d
  end.

(** [v || []]: every array is truthy. *)
Definition orEmpty {A : Type} (v : option (list A)) : list A :=
  match v with
  | Some l => l
  | None => []
  end.

(** The three assignments [status], [lastSeen], [instances]. *)
Definition mergeStatus (device : DeviceRecord) (data : StatusData) : DeviceRecord :=
  {| id := id device; name := name device;
     status := orString (s_status data) "offline";
     endpoint := endpoint device; type := type device;
     instances := orEmpty (s_instances data);
     lastSeen := orOptString (last_seen data) (lastSeen device);
     capabilities := capabilities device; extra := extra device |}.

Definition assignField (device : DeviceRecord) (f : DeviceField) : DeviceRecord :=
  match f with
  | F_id v =>
    {| id := v; name := name device; status := status device;
       endpoint := endpoint device; type := type device;
       instances := instances device; lastSeen := lastSeen device;
       capabilities := capabilities device; extra := extra device |}
  | F_name v =>
    {| id := id device; name := v; status := status device;
       endpoint := endpoint device; type := type device;
       instances := instances device; lastSeen := lastSeen device;
       capabilities := capabilities device; extra := extra device |}
  | F_status v =>
    {| id := id device; name := name device; status := v;
       endpoint := endpoint device; type := type device;
       instances := instances device; lastSeen := lastSeen device;
       capabilities := capabilities device; extra := extra device |}
  | F_endpoint v =>
    {| id := id device; name := name device; status := status device;
       endpoint := v; type := type device;
       instances := instances device; lastSeen := lastSeen device;
       capabilities := capabilities device; extra := extra device |}
  | F_type v =>
    {| id := id device; name := name device; status := status device;
       endpoint := endpoint device; type := v;
       instances := instances device; lastSeen := lastSeen device;
       capabilities := capabilities device; extra := extra device |}
  | F_instances v =>
    {| id := id device; name := name device; status := status device;
       endpoint := endpoint device; type := type device;
       instances := v; lastSeen := lastSeen device;
       capabilities := capabilities device; extra := extra device |}
  | F_lastSeen v =>
    {| id := id device; name := name device; status := status device;
       endpoint := endpoint device; type := type device;
       instances := instances device; lastSeen := v;
       capabilities := capabilities device; extra := extra device |}
  | F_capabilities v =>
    {| id := id device; name := name device; status := status device;
       endpoint := endpoint device; type := type device;
       instances := instances device; lastSeen := lastSeen device;
       capabilities := v; extra := extra device |}
  | F_other key value =>
    {| id := id device; name := name device; status := status device;
       endpoint := endpoint device; type := type device;
       instances := instances device; lastSeen := lastSeen device;
       capabilities := capabilities device;
       extra := (key, value) :: filter (λ p, p.1 ≠ key) (extra device) |}
  end.

(** [Object.assign(device, info)] *)
Definition Object_assign (device : DeviceRecord) (info : list DeviceField) : DeviceRecord :=
  foldl assignField device info.

(** The log entry for a device whose status differs from [oldStatus]; no
    entry when it is the same. [verb] is the wording of the caller. *)
Definition logStatusChange (verb : DeviceRecord → string → string)
    (device : DeviceRecord) (oldStatus : string) (st : State) : State :=
  if negb (oldStatus =? status device) then
    addLog (verb device oldStatus)
           (if status device =? "online" then success else warning) st
  else st.

Definition changedFromTo (device : DeviceRecord) (oldStatus : string) : string :=
  name device +:+ ": Status changed from " +:+ oldStatus +:+ " to " +:+ status device.

Definition updatedTo (device : DeviceRecord) (oldStatus : string) : string :=
  name device +:+ ": Status updated to " +:+ status device.

(** The request of one device in [getAllDevicesStatus], from the answer
    of the network to the element of [results]. *)
Definition statusResult (deviceType : string) (net : FetchOutcome (option StatusData))
  : StatusResult :=
  match net with
  | Rejected m =>
    {| r_deviceType := deviceType; r_status := Some (offlineStatus m); r_success := false |}
  | Resolved response =>
    if ok response then
      match json response with
      | inl m =>
        {| r_deviceType := deviceType; r_status := Some (offlineStatus m);
           r_success := false |}
      | inr data =>
        {| r_deviceType := deviceType; r_status := data; r_success := true |}
      end
    else
      {| r_deviceType := deviceType;
         r_status := Some (offlineStatus (statusText response));
         r_success := false |}
  end.

(** The callback of [results.forEach]. Reading [status.status] off a
    [null] body throws before anything is written. *)
Definition applyStatusResult (r : StatusResult) (st : State) : Completion State :=
  match lookupDevice (r_deviceType r) (deviceData st) with
  | None => Normal st
  | Some device =>
    match r_status r with
    | None => Throw "Cannot read properties of null (reading 'status')"
    | Some data =>
      let oldStatus := status device in
      let merged := mergeStatus device data in
      let st1 := set_deviceData (updateDevice (r_deviceType r) merged (deviceData st)) st in
      let st2 := logStatusChange changedFromTo merged oldStatus st1 in
      match device_info data with
      | Some info_ =>
        Normal (set_deviceData
                  (updateDevice (r_deviceType r) (Object_assign merged info_)
                     (deviceData st2)) st2)
      | None => Normal st2
      end
    end
  end.

(** [results.forEach(...)]: the first callback that throws ends the loop. *)
Fixpoint forEachResult (results : list StatusResult) (st : State) : State * option string :=
  match results with
  | [] => (st, None)
  | r :: rest =>
    match applyStatusResult r st with
    | Normal st' => forEachResult rest st'
    | Throw m => (st, Some m)
    end
  end.

Definition statusRequest (entry : string * DeviceRecord) : Request :=
  {| req_method := "POST";
     req_url := masterDeviceUrl CONFIG +:+ endpoint entry.2 +:+ "/status";
     req_body := StatusBody (Some (id entry.2)) |}.

(** [net] gives the answer of the network to the status request of each
    device type. *)
Definition getAllDevicesStatus (net : string → FetchOutcome (option StatusData))
    (st : State) : State * bool :=
  match masterStatus st with
  | disconnected => (st, false)
  | connected =>
    let entries := deviceData st in
    let st1 := set_requests (requests st ++ map statusRequest entries) st in
    let results := map (λ entry, statusResult entry.1 (net entry.1)) entries in
    match forEachResult results st1 with
    | (st2, None) => (st2, true)
    | (st2, Some _) => (addLog "Failed to update device status" error st2, false)
    end
  end.

(** The result is [Some true], [Some false], or [None] for [undefined]
    (a response that is not ok falls out of the [try] block).

    [deviceData[deviceType]] may be a member inherited from
    [Object.prototype]. It has no endpoint, and the text the call hands
    to [fetch] then reads http://localhost:8080undefined/status, which is
    no URL (the port is no number): the promise rejects whatever the
    network would answer, and the [catch] block returns [false]. *)
Definition refreshSingleDevice (deviceType : string)
    (net : FetchOutcome (option StatusData)) (st : State) : State * option bool :=
  match lookupDevice deviceType (deviceData st) with
  | None =>
    match inheritedMember deviceType objectPrototype with
    | None => (st, Some false)
    | Some _ =>
      (fetch "POST" (masterDeviceUrl CONFIG +:+ show None +:+ "/status")
         (StatusBody None) st,
       Some false)
    end
  | Some device =>
    let st1 := fetch "POST" (masterDeviceUrl CONFIG +:+ endpoint device +:+ "/status")
                 (StatusBody (Some (id device))) st in
    match net with
    | Rejected _ => (st1, Some false)
    | Resolved response =>
      if ok response then
        match json response with
        | inl _ => (st1, Some false)
        | inr None => (st1, Some false)
        | inr (Some data) =>
          let oldStatus := status device in
          let merged := mergeStatus device data in
          let st2 := set_deviceData (updateDevice deviceType merged (deviceData st1)) st1 in
          (logStatusChange updatedTo merged oldStatus st2, Some true)
        end
      else (st1, None)
    end
  end.

(** ** Command dispatcher *)

(** A parsed command body that is an object. *)
Record CommandResult := {
  download_url : option string;
  filename : option string;
  clients : option (list string);
  payloads : option (list string);
  c_error : option string
}.

(** Host calls made on the success path that the host may answer with an
    exception: [link.click()] in the response handler and [setTimeout]
    when the follow-up refresh is scheduled. [None]: the call returns. *)
Record Host := {
  click_fault : option string;
  setTimeout_fault : option string
}.

Definition quietHost : Host := {| click_fault := None; setTimeout_fault := None |}.

Inductive CommandReturn :=
| ReturnFalse
| ReturnResult (result : option CommandResult).

(** [document.getElementById(i)] followed by [classList.add(c)] when the
    element exists. *)
Definition classList_add (i c : string) (st : State) : State :=
  match dom st !! i with
  | Some classes => set_dom (<[i := {[c]} ∪ classes]> (dom st)) st
  | None => st
  end.

Definition classList_remove (i c : string) (st : State) : State :=
  match dom st !! i with
  | Some classes => set_dom (<[i := classes ∖ {[c]}]> (dom st)) st
  | None => st
  end.

Definition truthy (v : option string) : bool :=
  match v with
  | Some s => negb (s =? "")
  | None => false
  end.

(** The result is [null] when the body parsed to [null]: the first
    property read off it throws. *)
Definition handleCommandResponse (deviceType command : string)
    (result : option CommandResult) (host : Host) (st : State) : State * Completion unit :=
  let device := getDevice deviceType (deviceData st) in
  let deviceName (k : string → State * Completion unit) :=
    match device with
    | Some d => k (show (v_name d))
    | None => (st, Throw "Cannot read properties of undefined (reading 'name')")
    end in
  if (command =? "download_logs") || (command =? "download_pcap") then
    match result with
    | None => (st, Throw "Cannot read properties of null (reading 'download_url')")
    | Some r =>
      if truthy (download_url r) then
        match click_fault host with
        | Some m => (st, Throw m)
        | None => deviceName (λ n, (addLog (n +:+ ": Download started") success st, Normal ()))
        end
      else (st, Normal ())
    end
  else if command =? "view_clients" then
    match result with
    | None => (st, Throw "Cannot read properties of null (reading 'clients')")
    | Some r =>
      match clients r with
      | Some cl =>
        deviceName (λ n, (addLog (n +:+ ": " +:+ pretty (length cl) +:+ " clients connected")
                            info st, Normal ()))
      | None => (st, Normal ())
      end
    end
  else if command =? "list_payloads" then
    match result with
    | None => (st, Throw "Cannot read properties of null (reading 'payloads')")
    | Some r =>
      match payloads r with
      | Some pl =>
        deviceName (λ n, (addLog (n +:+ ": " +:+ pretty (length pl) +:+ " payloads available")
                            info st, Normal ()))
      | None => (st, Normal ())
      end
    end
  else (st, Normal ()).

(** The [try] block up to the [await] of the [fetch]. *)
Definition commandDispatched (device : DeviceView) (command : string)
    (parameters : list (string * string)) (st : State) : State :=
  let st1 := addLog ("Sending " +:+ command +:+ " command to " +:+ show (v_name device))
               info st in
  let st2 := classList_add (show (v_id device)) "loading" st1 in
  fetch "POST" (masterDeviceUrl CONFIG +:+ show (v_endpoint device) +:+ "/command")
    (CommandBody command parameters (v_id device)) st2.

(** The [try] block from the moment the [fetch] has settled. The call
    reads and writes nothing between the [await] of the [fetch] and the
    [await] of [response.json()], so what else runs between the two is
    as if it ran before the first. *)
Definition commandSettled (device : DeviceView) (deviceType command : string)
    (net : FetchOutcome (option CommandResult)) (host : Host) (st : State)
  : State * Completion (option CommandResult) :=
  match net with
  | Rejected m => (st, Throw m)
  | Resolved response =>
    match json response with
    | inl m => (st, Throw m)
    | inr result =>
      if ok response then
        let st4 := addLog (show (v_name device) +:+ ": " +:+ command
                           +:+ " executed successfully") success st in
        let st5 := showNotification (command +:+ " sent to " +:+ show (v_name device))
                     success st4 in
        match handleCommandResponse deviceType command result host st5 with
        | (st6, Throw m) => (st6, Throw m)
        | (st6, Normal _) =>
          match setTimeout_fault host with
          | Some m => (st6, Throw m)
          | None =>
            (set_timers (timers st6 ++ [RefreshTimer deviceType 1000%N]) st6, Normal result)
          end
        end
      else
        match result with
        | None => (st, Throw "Cannot read properties of null (reading 'error')")
        | Some r =>
          (st, Throw (orString (c_error r) ("Command failed: " +:+ statusText response)))
        end
    end
  end.

(** The [catch] block. *)
Definition commandFailed (device : DeviceView) (command m : string) (st : State) : State :=
  let st1 := addLog (show (v_name device) +:+ ": " +:+ command +:+ " failed - " +:+ m)
               error st in
  showNotification ("Command failed: " +:+ m) error st1.

(** The [finally] block: the element is looked up again, under the id
    the device has now. *)
Definition commandDone (device : DeviceView) (st : State) : State :=
  classList_remove (show (v_id device)) "loading" st.

(** [sendDeviceCommand] up to its first [await]: the guards and, when
    they pass, the synchronous part of the [try] block. The flag says
    whether the request is in flight; when it is not, the call has
    returned [false]. *)
Definition sendDeviceCommand_dispatch (deviceType command : string)
    (parameters : list (string * string)) (st : State) : State * bool :=
  match masterStatus st with
  | disconnected =>
    let st1 := addLog "Cannot send command: Master device not connected" error st in
    (showNotification "Master device not connected" error st1, false)
  | connected =>
    match getDevice deviceType (deviceData st) with
    | None => (addLog ("Unknown device type: " +:+ deviceType) error st, false)
    | Some device =>
      if negb (isOnline device)
         && negb (existsb (String.eqb command) ["refresh"; "reconnect"]) then
        let st1 := addLog ("Cannot send " +:+ command +:+ " to " +:+ show (v_name device)
                           +:+ ": Device is offline") warning st in
        (showNotification (show (v_name device) +:+ " is offline") warning st1, false)
      else (commandDispatched device command parameters st, true)
    end
  end.

(** [sendDeviceCommand] from the moment its request has settled to its
    return. [device] is the object the call bound before the [await]; its
    fields are read as that object holds them now. The registry never
    drops a key, so the object is still found under [deviceType]. *)
Definition sendDeviceCommand_settle (deviceType command : string)
    (net : FetchOutcome (option CommandResult)) (host : Host) (st : State)
  : State * CommandReturn :=
  match getDevice deviceType (deviceData st) with
  | None => (st, ReturnFalse)
  | Some device =>
    let '(st1, completion) := commandSettled device deviceType command net host st in
    let '(st2, returned) :=
      match completion with
      | Normal result => (st1, ReturnResult result)
      | Throw m => (commandFailed device command m st1, ReturnFalse)
      end in
    (commandDone device st2, returned)
  end.

(** A call of [sendDeviceCommand] during which nothing else runs. *)
Definition sendDeviceCommand (deviceType command : string)
    (parameters : list (string * string))
    (net : FetchOutcome (option CommandResult)) (host : Host) (st : State)
  : State * CommandReturn :=
  let '(st1, inFlight) := sendDeviceCommand_dispatch deviceType command parameters st in
  if inFlight then sendDeviceCommand_settle deviceType command net host st1
  else (st1, ReturnFalse).

Definition controlInstance (deviceType instanceId action : string)
    (net : FetchOutcome (option CommandResult)) (host : Host) (st : State) : State :=
  (sendDeviceCommand deviceType "control_instance"
     [("instanceId", instanceId); ("action", action)] net host st).1.

(** ** Vocabulary of the specifications *)

(** A sequence of [addLog] calls, oldest first. *)
Definition recordAll (es : list (string * LogType)) (st : State) : State :=
  foldl (λ s e, addLog e.1 e.2 s) st es.

(** The entries that [recordAll es] creates when the counter stands at
    [n], oldest first. *)
Fixpoint stamped (n : nat) (es : list (string * LogType)) : list LogEntry :=
  match es with
  | [] => []
  | e :: rest =>
    {| timestamp := n; message := e.1; log_type := e.2; log_id := n |}
      :: stamped (S n) rest
  end.

(** [st'] differs from [st] in the log by exactly the calls [es]. *)
Definition logged (es : list (string * LogType)) (st st' : State) : Prop :=
  logs st' = logs (recordAll es st) ∧ logSeq st' = logSeq st + length es.

(** Element [i] carries the class [c]. *)
Definition hasClass (i c : string) (st : State) : Prop :=
  ∃ classes, dom st !! i = Some classes ∧ c ∈ classes.

(** The value a [device_info] object carries for a declared field, if
    any ([pick] selects the field); of several, [Object.assign] keeps the
    last. *)
Fixpoint lastField {A : Type} (pick : DeviceField → option A) (info_ : list DeviceField)
  : option A :=
  match info_ with
  | [] => None
  | f :: rest =>
    match lastField pick rest with
    | Some v => Some v
    | None => pick f
    end
  end.

Definition pickStatus (f : DeviceField) : option string :=
  match f with F_status v => Some v | _ => None end.

Definition pickInstances (f : DeviceField) : option (list InstanceRecord) :=
  match f with F_instances v => Some v | _ => None end.

Definition pickLastSeen (f : DeviceField) : option (option string) :=
  match f with F_lastSeen v => Some v | _ => None end.

(** The [device_info] of a status object, empty when it has none. *)
Definition infoOf (data : StatusData) : list DeviceField :=
  default [] (device_info data).

(** The record a device ends with when the [forEach] callback has
    merged [data] into [device]. *)
Definition finalRecord (device : DeviceRecord) (data : StatusData) : DeviceRecord :=
  Object_assign (mergeStatus device data) (infoOf data).

(** The element of [results] for one entry of the registry. *)
Definition resultFor (net : string → FetchOutcome (option StatusData))
    (entry : string * DeviceRecord) : StatusResult :=
  statusResult entry.1 (net entry.1).

(** A fetch that did not yield a body: the promise rejected, the
    response is not ok, or its body does not parse. *)
Definition fetchFailed {B : Type} (net : FetchOutcome B) : Prop :=
  match net with
  | Rejected _ => True
  | Resolved response => ok response = false ∨ ∃ m, json response = inl m
  end.

(** The reason the script attaches to a failed fetch. *)
Definition failureReason {B : Type} (net : FetchOutcome B) : string :=
  match net with
  | Rejected m => m
  | Resolved response =>
    if ok response then match json response with inl m => m | inr _ => "" end
    else statusText response
  end.

(** A successful fetch whose body is the object [data]. *)
Definition fetched (net : FetchOutcome (option StatusData)) (data : StatusData) : Prop :=
  ∃ response, net = Resolved response ∧ ok response = true
              ∧ json response = inr (Some data).

(** The log calls a device accounts for in a sync, from its record
    before ([device]) and after ([device']) the sync: one when the status
    differs, none when it is the same. *)
Definition transitionLog (wording : DeviceRecord → string → string)
    (device : DeviceRecord) (device' : option DeviceRecord) : list (string * LogType) :=
  match device' with
  | Some d' =>
    if status device =? status d' then []
    else [(wording device (status d'),
           if status d' =? "online" then success else warning)]
  | None => []
  end.

Definition bulkWording (device : DeviceRecord) (newStatus : string) : string :=
  name device +:+ ": Status changed from " +:+ status device +:+ " to " +:+ newStatus.

Definition singleWording (device : DeviceRecord) (newStatus : string) : string :=
  name device +:+ ": Status updated to " +:+ newStatus.

(** The entry [getAllDevicesStatus] adds when its loop was cut short. *)
Definition abortLog (st : State) (completed : bool) : list (string * LogType) :=
  match masterStatus st, completed with
  | connected, false => [("Failed to update device status", error)]
  | _, _ => []
  end.

(** ** Sample inputs *)

Definition respond {B : Type} (code : nat) (text : string) (body : B) : FetchOutcome B :=
  Resolved {| resp_status := code; statusText := text; json := inr body |}.

Definition healthy : FetchOutcome unit := respond 200 "OK" ().

(** The page after a first successful probe. *)
Definition connectedState : State := (checkMasterConnection healthy initialState).1.

Definition i1 : InstanceRecord :=
  {| inst_id := "i1"; inst_name := None; inst_status := "running"; inst_details := None |}.

Definition i2 : InstanceRecord :=
  {| inst_id := "i2"; inst_name := Some "capture"; inst_status := "stopped";
     inst_details := None |}.

(** [{status: "online", last_seen: ..., instances: [i1]}] *)
Definition onlineData : StatusData :=
  {| s_status := Some "online"; last_seen := Some "2024-09-22T10:30:00Z";
     s_instances := Some [i1]; device_info := None; s_error := None |}.

(** [{status: "offline", device_info: {status: "online"}}] *)
Definition statusInInfo : StatusData :=
  {| s_status := Some "offline"; last_seen := None; s_instances := None;
     device_info := Some [F_status "online"]; s_error := None |}.

(** [{status: "online", instances: [i1], device_info: {instances: [i2]}}] *)
Definition instancesInInfo : StatusData :=
  {| s_status := Some "online"; last_seen := None; s_instances := Some [i1];
     device_info := Some [F_instances [i2]]; s_error := None |}.

(** [{status: "online", device_info: {lastSeen: ...}}] *)
Definition lastSeenInInfo : StatusData :=
  {| s_status := Some "online"; last_seen := None; s_instances := None;
     device_info := Some [F_lastSeen (Some "2030-01-01T00:00:00Z")]; s_error := None |}.

(** Every status request is answered 200 with the body [data]. *)
Definition allAnswer (data : StatusData) : string → FetchOutcome (option StatusData) :=
  λ _, respond 200 "OK" (Some data).

(** The status request of the keylogger is answered 200 with the body
    [data]; the requests of the other devices are rejected. *)
Definition keyloggerAnswers (data : StatusData)
  : string → FetchOutcome (option StatusData) :=
  λ k, if k =? "keylogger" then respond 200 "OK" (Some data)
       else Rejected "Failed to fetch".

(** The page after one bulk sync, and after a second, in which the
    keylogger answered [statusInInfo]. *)
Definition infoOnce : State :=
  (getAllDevicesStatus (keyloggerAnswers statusInInfo) connectedState).1.

Definition infoTwice : State :=
  (getAllDevicesStatus (keyloggerAnswers statusInInfo) infoOnce).1.

(** [{status: "online", device_info: {id: "device2"}}] *)
Definition idInInfo : StatusData :=
  {| s_status := Some "online"; last_seen := None; s_instances := None;
     device_info := Some [F_id "device2"]; s_error := None |}.

(** [{}] as the body of a command response. *)
Definition emptyResult : CommandResult :=
  {| download_url := None; filename := None; clients := None; payloads := None;
     c_error := None |}.

(** The page after a bulk sync in which every device reported online. *)
Definition allOnline : State := (getAllDevicesStatus (allAnswer onlineData) connectedState).1.

(** The keylogger answers 200 with the body [null], the request of the
    keystroke injector is rejected, the other devices report online. *)
Definition nullThenDown : string → FetchOutcome (option StatusData) :=
  λ k, if k =? "keylogger" then respond 200 "OK" None
       else if k =? "keystroke_injector" then Rejected "Failed to fetch"
       else respond 200 "OK" (Some onlineData).

(** On a page with every device online, a start_logging command for the
    keylogger is in flight. *)
Definition commandInFlight : State :=
  (sendDeviceCommand_dispatch "keylogger" "start_logging" [] allOnline).1.

(** The keylogger answers [idInInfo], the other devices report online. *)
Definition idChanges : string → FetchOutcome (option StatusData) :=
  λ k, respond 200 "OK" (Some (if k =? "keylogger" then idInInfo else onlineData)).

(** While the command is in flight a bulk sync runs, answered by
    [idChanges]. *)
Definition syncedInFlight : State :=
  (getAllDevicesStatus idChanges commandInFlight).1.

(** The request of the keystroke injector is rejected, the other devices
    report online. *)
Definition injectorDown : string → FetchOutcome (option StatusData) :=
  λ k, if k =? "keystroke_injector" then Rejected "Failed to fetch"
       else respond 200 "OK" (Some onlineData).

(** ** Basic facts *)

Section AddLog.

Variables (msg : string) (ty : LogType) (st : State).

Lemma addLog_logs :
  logs (addLog msg ty st)
  = take (logMaxEntries CONFIG)
      ({| timestamp := logSeq st; message := msg; log_type := ty; log_id := logSeq st |}
         :: logs st).
Proof.
  unfold addLog. cbn [logs set_logs].
  destruct (Nat.ltb_spec (logMaxEntries CONFIG)
              (length ({| timestamp := logSeq st; message := msg; log_type := ty;
                          log_id := logSeq st |} :: logs st))) as [Hlt|Hge].
  - reflexivity.
  - symmetry. apply take_ge. exact Hge.
Qed.

Lemma addLog_logSeq : logSeq (addLog msg ty st) = S (logSeq st).
Proof. reflexivity. Qed.

Lemma addLog_masterStatus : masterStatus (addLog msg ty st) = masterStatus st.
Proof. reflexivity. Qed.

Lemma addLog_deviceData : deviceData (addLog msg ty st) = deviceData st.
Proof. reflexivity. Qed.

Lemma addLog_dom : dom (addLog msg ty st) = dom st.
Proof. reflexivity. Qed.

Lemma addLog_requests : requests (addLog msg ty st) = requests st.
Proof. reflexivity. Qed.

Lemma addLog_timers : timers (addLog msg ty st) = timers st.
Proof. reflexivity. Qed.

End AddLog.

Lemma showNotification_logs msg ty st :
  logs (showNotification msg ty st) = logs (addLog msg ty st).
Proof. unfold showNotification. rewrite !addLog_logs. reflexivity. Qed.

Lemma showNotification_logSeq msg ty st :
  logSeq (showNotification msg ty st) = S (logSeq st).
Proof. reflexivity. Qed.

Lemma showNotification_masterStatus msg ty st :
  masterStatus (showNotification msg ty st) = masterStatus st.
Proof. reflexivity. Qed.

Lemma showNotification_deviceData msg ty st :
  deviceData (showNotification msg ty st) = deviceData st.
Proof. reflexivity. Qed.

Lemma showNotification_dom msg ty st : dom (showNotification msg ty st) = dom st.
Proof. reflexivity. Qed.

Lemma showNotification_requests msg ty st :
  requests (showNotification msg ty st) = requests st.
Proof. reflexivity. Qed.

(** The log after an [addLog] depends on the state through the log and
    the counter only. *)
Lemma addLog_logs_ext msg ty st1 st2 :
  logs st1 = logs st2 → logSeq st1 = logSeq st2 →
  logs (addLog msg ty st1) = logs (addLog msg ty st2).
Proof. intros Hl Hn. rewrite !addLog_logs, Hl, Hn. reflexivity. Qed.

Lemma recordAll_app es1 es2 st :
  recordAll (es1 ++ es2) st = recordAll es2 (recordAll es1 st).
Proof. unfold recordAll. apply foldl_app. Qed.

Lemma recordAll_logSeq es st : logSeq (recordAll es st) = logSeq st + length es.
Proof.
  revert st. induction es as [|e es IH]; intros st; cbn [recordAll foldl length].
  - lia.
  - change (foldl _ (addLog e.1 e.2 st) es) with (recordAll es (addLog e.1 e.2 st)).
    rewrite IH, addLog_logSeq. lia.
Qed.

Lemma recordAll_logs_ext es st1 st2 :
  logs st1 = logs st2 → logSeq st1 = logSeq st2 →
  logs (recordAll es st1) = logs (recordAll es st2).
Proof.
  revert st1 st2. induction es as [|e es IH]; intros st1 st2 Hl Hn; [exact Hl|].
  cbn [recordAll foldl].
  apply (IH (addLog e.1 e.2 st1) (addLog e.1 e.2 st2)).
  - by apply addLog_logs_ext.
  - by rewrite !addLog_logSeq, Hn.
Qed.

Lemma take_cons_take {A : Type} (n : nat) (x : A) (l : list A) :
  take n (x :: take n l) = take n (x :: l).
Proof.
  destruct n as [|n]; [reflexivity|]. cbn [take]. f_equal.
  rewrite take_take. f_equal. lia.
Qed.

Lemma stamped_length n es : length (stamped n es) = length es.
Proof. revert n. induction es as [|e es IH]; intros n; cbn; [done|]. by rewrite IH. Qed.

Lemma take_app_take {A : Type} (n : nat) (p l : list A) :
  take n (p ++ take n l) = take n (p ++ l).
Proof. rewrite !take_app, take_take. do 2 f_equal. lia. Qed.

Lemma addLog_length msg ty st :
  (length (logs (addLog msg ty st)) ≤ logMaxEntries CONFIG)%nat.
Proof. rewrite addLog_logs, length_take. lia. Qed.

Lemma recordAll_logs es st :
  (length (logs st) ≤ logMaxEntries CONFIG)%nat →
  logs (recordAll es st)
  = take (logMaxEntries CONFIG) (reverse (stamped (logSeq st) es) ++ logs st).
Proof.
  revert st. induction es as [|e es IH]; intros st Hlen.
  - cbn [recordAll foldl stamped]. rewrite reverse_nil. cbn [app].
    symmetry. by apply take_ge.
  - cbn [recordAll foldl stamped].
    change (foldl _ (addLog e.1 e.2 st) es) with (recordAll es (addLog e.1 e.2 st)).
    rewrite IH by apply addLog_length.
    rewrite addLog_logSeq, addLog_logs, take_app_take.
    rewrite reverse_cons, <- app_assoc. reflexivity.
Qed.

Lemma recordAll_length es st :
  (length (logs st) ≤ logMaxEntries CONFIG)%nat →
  (length (logs (recordAll es st)) ≤ logMaxEntries CONFIG)%nat.
Proof. intros H. rewrite recordAll_logs by done. rewrite length_take. lia. Qed.

Lemma logged_addLog msg ty st : logged [(msg, ty)] st (addLog msg ty st).
Proof. split; [reflexivity|]. rewrite addLog_logSeq. cbn. lia. Qed.

Lemma logged_addLog_ext msg ty st st0 :
  logs st0 = logs st → logSeq st0 = logSeq st → logged [(msg, ty)] st (addLog msg ty st0).
Proof.
  intros Hl Hn. split.
  - cbn [recordAll foldl fst snd]. by apply addLog_logs_ext.
  - rewrite addLog_logSeq, Hn. cbn. lia.
Qed.

Lemma logged_notified m1 t1 m2 t2 st :
  logged [(m1, t1); (m2, t2)] st (showNotification m2 t2 (addLog m1 t1 st)).
Proof.
  split.
  - rewrite showNotification_logs. reflexivity.
  - rewrite showNotification_logSeq, addLog_logSeq. cbn. lia.
Qed.

Lemma logged_nil st st' : logs st' = logs st → logSeq st' = logSeq st → logged [] st st'.
Proof. intros Hl Hn. split; [exact Hl|]. cbn. lia. Qed.

Lemma logged_trans es1 es2 st1 st2 st3 :
  logged es1 st1 st2 → logged es2 st2 st3 → logged (es1 ++ es2) st1 st3.
Proof.
  intros [Hl1 Hn1] [Hl2 Hn2]. split.
  - rewrite Hl2, recordAll_app. apply recordAll_logs_ext; [exact Hl1|].
    rewrite recordAll_logSeq. exact Hn1.
  - rewrite Hn2, Hn1, length_app. lia.
Qed.

(** ** The registry *)

Section Registry.

Implicit Types (dd : list (string * DeviceRecord)) (k : string) (d : DeviceRecord).

Lemma lookupDevice_update_eq k d d' dd :
  lookupDevice k dd = Some d → lookupDevice k (updateDevice k d' dd) = Some d'.
Proof.
  induction dd as [|[k0 d0] dd IH]; cbn; [done|].
  destruct (k0 =? k) eqn:E; cbn; rewrite E; [done|exact IH].
Qed.

Lemma lookupDevice_update_ne k k' d' dd :
  k ≠ k' → lookupDevice k' (updateDevice k d' dd) = lookupDevice k' dd.
Proof.
  intros Hne. induction dd as [|[k0 d0] dd IH]; cbn; [done|].
  destruct (String.eqb_spec k0 k) as [->|Hk]; cbn.
  - destruct (String.eqb_spec k k'); [done|reflexivity].
  - by rewrite IH.
Qed.

Lemma updateDevice_keys k d' dd : (updateDevice k d' dd).*1 = dd.*1.
Proof.
  induction dd as [|[k0 d0] dd IH]; cbn; [done|].
  destruct (k0 =? k); cbn; [done|]. by rewrite IH.
Qed.

Lemma updateDevice_update k d1 d2 dd :
  updateDevice k d2 (updateDevice k d1 dd) = updateDevice k d2 dd.
Proof.
  induction dd as [|[k0 d0] dd IH]; cbn; [done|].
  destruct (k0 =? k) eqn:E; cbn; rewrite E; [done|]. by rewrite IH.
Qed.

Lemma lookupDevice_None k dd : k ∉ dd.*1 ↔ lookupDevice k dd = None.
Proof.
  induction dd as [|[k0 d0] dd IH]; cbn.
  - split; [done|]. intros _. apply not_elem_of_nil.
  - rewrite not_elem_of_cons.
    destruct (String.eqb_spec k0 k) as [->|Hk]; split.
    + intros [? _]. done.
    + discriminate.
    + intros [_ H]. by apply IH.
    + intros H. split; [congruence|]. by apply IH.
Qed.

Lemma lookupDevice_elem k d dd :
  NoDup dd.*1 → (k, d) ∈ dd → lookupDevice k dd = Some d.
Proof.
  induction dd as [|[k0 d0] dd IH]; cbn; intros Hnd Hin.
  - by apply elem_of_nil in Hin.
  - apply NoDup_cons in Hnd as [Hk0 Hnd].
    apply elem_of_cons in Hin as [Heq|Hin].
    + injection Heq as -> ->. by rewrite String.eqb_refl.
    + destruct (String.eqb_spec k0 k) as [->|Hk]; [|by apply IH].
      exfalso. apply Hk0. apply list_elem_of_fmap. by exists (k, d).
Qed.

Lemma lookupDevice_Some_elem k d dd : lookupDevice k dd = Some d → (k, d) ∈ dd.
Proof.
  induction dd as [|[k0 d0] dd IH]; cbn; [done|].
  destruct (String.eqb_spec k0 k) as [->|Hk].
  - intros [= ->]. apply elem_of_cons. by left.
  - intros H. apply elem_of_cons. right. by apply IH.
Qed.

End Registry.

(** ** [Object.assign] *)

Lemma lastField_assign {A : Type} (pick : DeviceField → option A)
    (proj : DeviceRecord → A) :
  (∀ d f, proj (assignField d f) = default (proj d) (pick f)) →
  ∀ info_ d, proj (Object_assign d info_) = default (proj d) (lastField pick info_).
Proof.
  intros Hstep. unfold Object_assign.
  induction info_ as [|f rest IH]; intros d; cbn [foldl lastField]; [done|].
  rewrite IH. destruct (lastField pick rest); [done|]. cbn. apply Hstep.
Qed.

Lemma Object_assign_status d info_ :
  status (Object_assign d info_) = default (status d) (lastField pickStatus info_).
Proof. apply lastField_assign. by intros d' []. Qed.

Lemma Object_assign_instances d info_ :
  instances (Object_assign d info_) = default (instances d) (lastField pickInstances info_).
Proof. apply lastField_assign. by intros d' []. Qed.

Lemma Object_assign_lastSeen d info_ :
  lastSeen (Object_assign d info_) = default (lastSeen d) (lastField pickLastSeen info_).
Proof. apply lastField_assign. by intros d' []. Qed.

(** ** Status synchroniser: one result *)

Lemma statusResult_deviceType k net : r_deviceType (statusResult k net) = k.
Proof.
  unfold statusResult. destruct net as [m|response]; [done|].
  destruct (ok response); [|done]. by destruct (json response).
Qed.

Lemma statusResult_failed k net :
  fetchFailed net →
  statusResult k net
  = {| r_deviceType := k; r_status := Some (offlineStatus (failureReason net));
       r_success := false |}.
Proof.
  unfold statusResult, fetchFailed, failureReason.
  destruct net as [m|response]; [done|].
  intros [->|[m Hm]]; [done|]. rewrite Hm. by destruct (ok response).
Qed.

Lemma statusResult_fetched k net data :
  fetched net data →
  statusResult k net = {| r_deviceType := k; r_status := Some data; r_success := true |}.
Proof. intros (response & -> & Hok & Hjson). unfold statusResult. by rewrite Hok, Hjson. Qed.

Lemma transitionLog_same wording d : transitionLog wording d (Some d) = [].
Proof. unfold transitionLog. by rewrite String.eqb_refl. Qed.

Lemma applyStatusResult_merge r st device data :
  lookupDevice (r_deviceType r) (deviceData st) = Some device →
  r_status r = Some data →
  ∃ st', applyStatusResult r st = Normal st'
    ∧ deviceData st'
      = updateDevice (r_deviceType r) (finalRecord device data) (deviceData st)
    ∧ logged (transitionLog bulkWording device (Some (mergeStatus device data))) st st'
    ∧ masterStatus st' = masterStatus st
    ∧ requests st' = requests st
    ∧ dom st' = dom st.
Proof.
  intros Hdev Hdata. unfold applyStatusResult. rewrite Hdev, Hdata.
  unfold finalRecord, infoOf, logStatusChange, transitionLog.
  destruct (status device =? status (mergeStatus device data)) eqn:Hsame;
    destruct (device_info data) as [info_|]; cbn [negb default];
    eexists; (split; [reflexivity|]);
    cbn [deviceData set_deviceData addLog set_logs masterStatus requests dom];
    rewrite ?updateDevice_update;
    (split; [reflexivity|]);
    (split; [|done]).
  - by apply logged_nil.
  - by apply logged_nil.
  - split; [|cbn; lia]. cbn [recordAll foldl fst snd]. by apply addLog_logs_ext.
  - split; [|cbn; lia]. cbn [recordAll foldl fst snd]. by apply addLog_logs_ext.
Qed.

(** ** Status synchroniser: the loop *)

Lemma flat_map_all_nil {A B : Type} (f : A → list B) (l : list A) :
  (∀ x, x ∈ l → f x = []) → flat_map f l = [].
Proof.
  induction l as [|x l IH]; intros H; cbn; [done|].
  rewrite (H x) by (apply elem_of_cons; by left).
  apply IH. intros y Hy. apply H. apply elem_of_cons. by right.
Qed.

Section ForEach.

Variable net : string → FetchOutcome (option StatusData).

Lemma resultFor_deviceType e : r_deviceType (resultFor net e) = e.1.
Proof. apply statusResult_deviceType. Qed.

(** The registry after the loop over the results of the entries [es],
    each of which the registry still holds as it was fetched: entries
    outside [es] are untouched; an entry of [es] is either untouched or
    replaced by the merge of its own result; when the loop completes
    every entry is merged, and it completes unless some body is null. *)
Lemma forEachResult_records es st :
  NoDup es.*1 →
  (∀ e, e ∈ es → lookupDevice e.1 (deviceData st) = Some e.2) →
  (∀ k, k ∉ es.*1 →
     lookupDevice k (deviceData (forEachResult (map (resultFor net) es) st).1)
     = lookupDevice k (deviceData st))
  ∧ (∀ e, e ∈ es →
       lookupDevice e.1 (deviceData (forEachResult (map (resultFor net) es) st).1)
       = Some e.2
       ∨ ∃ data, r_status (resultFor net e) = Some data
           ∧ lookupDevice e.1 (deviceData (forEachResult (map (resultFor net) es) st).1)
             = Some (finalRecord e.2 data))
  ∧ ((forEachResult (map (resultFor net) es) st).2 = None →
       ∀ e, e ∈ es →
         ∃ data, r_status (resultFor net e) = Some data
           ∧ lookupDevice e.1 (deviceData (forEachResult (map (resultFor net) es) st).1)
             = Some (finalRecord e.2 data))
  ∧ ((forEachResult (map (resultFor net) es) st).2 = None
     ∨ ∃ e, e ∈ es ∧ r_status (resultFor net e) = None)
  ∧ masterStatus (forEachResult (map (resultFor net) es) st).1 = masterStatus st
  ∧ requests (forEachResult (map (resultFor net) es) st).1 = requests st
  ∧ dom (forEachResult (map (resultFor net) es) st).1 = dom st.
Proof.
  revert st. induction es as [|[k d] es IH]; intros st Hnd Hpre.
  { cbn. repeat split; try done.
    - intros e He. by apply elem_of_nil in He.
    - intros _ e He. by apply elem_of_nil in He.
    - by left. }
  rewrite fmap_cons in Hnd. cbn [fst] in Hnd. apply NoDup_cons in Hnd as [Hk Hnd].
  assert (lookupDevice k (deviceData st) = Some d) as Hd.
  { apply (Hpre (k, d)). apply elem_of_cons. by left. }
  cbn [map forEachResult].
  destruct (r_status (resultFor net (k, d))) as [data|] eqn:Hdata.
  - destruct (applyStatusResult_merge (resultFor net (k, d)) st d data)
      as (st1 & Happly & Hdd & _ & Hms & Hrq & Hdom).
    { by rewrite resultFor_deviceType. }
    { exact Hdata. }
    rewrite Happly. rewrite resultFor_deviceType in Hdd. cbn [fst] in Hdd.
    assert (∀ k', k' ≠ k →
              lookupDevice k' (deviceData st1) = lookupDevice k' (deviceData st)) as Hother.
    { intros k' Hne. rewrite Hdd. by apply lookupDevice_update_ne. }
    assert (lookupDevice k (deviceData st1) = Some (finalRecord d data)) as Hself.
    { rewrite Hdd. by apply (lookupDevice_update_eq k d). }
    destruct (IH st1 Hnd) as (Hframe & Hout & Hall & Hexn & Hms' & Hrq' & Hdom').
    { intros e He. rewrite Hother; [apply Hpre; apply elem_of_cons; by right|].
      intros Heq. apply Hk. rewrite <- Heq. by apply list_elem_of_fmap_2. }
    split; [|split; [|split; [|split; [|split; [|split]]]]].
    + intros k' Hk'. rewrite fmap_cons in Hk'. apply not_elem_of_cons in Hk' as [Hne Hk'].
      rewrite Hframe by done. by apply Hother.
    + intros e He. apply elem_of_cons in He as [->|He]; [|by apply Hout].
      right. exists data. split; [done|]. cbn [fst snd]. rewrite Hframe by done. done.
    + intros Hnone e He. apply elem_of_cons in He as [->|He]; [|by apply Hall].
      exists data. split; [done|]. cbn [fst snd]. rewrite Hframe by done. done.
    + destruct Hexn as [Hnone|(e & He & Hnull)]; [by left|].
      right. exists e. split; [|done]. apply elem_of_cons. by right.
    + congruence.
    + congruence.
    + congruence.
  - assert (applyStatusResult (resultFor net (k, d)) st
            = Throw "Cannot read properties of null (reading 'status')") as ->.
    { unfold applyStatusResult. rewrite resultFor_deviceType. cbn [fst].
      by rewrite Hd, Hdata. }
    cbn [fst snd]. repeat split; try done.
    + intros e He. left. by apply Hpre.
    + right. exists (k, d). split; [|done]. apply elem_of_cons. by left.
Qed.

(** What the loop adds to the log: for each entry, in order, one call
    when its status after the loop differs from its status before, none
    otherwise, provided the [device_info] of no merged result carries a
    status of its own. *)
Lemma forEachResult_logged es st :
  NoDup es.*1 →
  (∀ e, e ∈ es → lookupDevice e.1 (deviceData st) = Some e.2) →
  (∀ e data, e ∈ es → r_status (resultFor net e) = Some data →
     lastField pickStatus (infoOf data) = None) →
  logged
    (flat_map
       (λ e, transitionLog bulkWording e.2
               (lookupDevice e.1 (deviceData (forEachResult (map (resultFor net) es) st).1)))
       es)
    st (forEachResult (map (resultFor net) es) st).1.
Proof.
  revert st. induction es as [|[k d] es IH]; intros st Hnd Hpre Hinfo.
  { cbn. by apply logged_nil. }
  pose proof (forEachResult_records ((k, d) :: es) st Hnd Hpre)
    as (_ & Hout & _).
  rewrite fmap_cons in Hnd. cbn [fst] in Hnd. apply NoDup_cons in Hnd as [Hk Hnd].
  assert (lookupDevice k (deviceData st) = Some d) as Hd.
  { apply (Hpre (k, d)). apply elem_of_cons. by left. }
  cbn [map forEachResult] in *.
  destruct (r_status (resultFor net (k, d))) as [data|] eqn:Hdata.
  - destruct (applyStatusResult_merge (resultFor net (k, d)) st d data)
      as (st1 & Happly & Hdd & Hlog & _).
    { by rewrite resultFor_deviceType. }
    { exact Hdata. }
    rewrite Happly in *. rewrite resultFor_deviceType in Hdd. cbn [fst] in Hdd.
    assert (∀ e, e ∈ es → lookupDevice e.1 (deviceData st1) = Some e.2) as Hpre1.
    { intros e He. rewrite Hdd, lookupDevice_update_ne.
      - apply Hpre. apply elem_of_cons. by right.
      - intros Heq. apply Hk. rewrite Heq. by apply list_elem_of_fmap_2. }
    pose proof (forEachResult_records es st1 Hnd Hpre1) as (Hframe & _).
    cbn [flat_map fst snd].
    apply (logged_trans _ _ st st1); [|apply IH; try done].
    + rewrite Hframe by done. rewrite Hdd, (lookupDevice_update_eq k d) by done.
      assert (status (finalRecord d data) = status (mergeStatus d data)) as Hst.
      { unfold finalRecord. rewrite Object_assign_status.
        rewrite (Hinfo (k, d) data); [done| |done]. apply elem_of_cons. by left. }
      unfold transitionLog in *. rewrite Hst. exact Hlog.
    + intros e data' He. apply Hinfo. apply elem_of_cons. by right.
  - assert (applyStatusResult (resultFor net (k, d)) st
            = Throw "Cannot read properties of null (reading 'status')") as Hthrow.
    { unfold applyStatusResult. rewrite resultFor_deviceType. cbn [fst].
      by rewrite Hd, Hdata. }
    rewrite Hthrow in *. cbn [fst snd] in *.
    assert (flat_map (λ e, transitionLog bulkWording e.2 (lookupDevice e.1 (deviceData st)))
              ((k, d) :: es) = []) as ->; [|by apply logged_nil].
    apply flat_map_all_nil. intros e He. rewrite (Hpre e He).
    apply transitionLog_same.
Qed.

End ForEach.

(** ** Activity log *)

(** C8. Starting from a log within the configured capacity (the empty log
    the page starts with in particular), after any sequence of [addLog]
    calls the log holds at most [CONFIG.logMaxEntries] entries; it is the
    newest-first list of all entries recorded, cut at the capacity, so
    the entries dropped are the oldest; and one more [addLog] puts its
    entry first, in front of the newest capacity-minus-one entries. *)
Theorem addLog_bounded_newest_first (es : list (string * LogType)) (st : State) :
  (length (logs st) ≤ logMaxEntries CONFIG)%nat →
  (length (logs (recordAll es st)) ≤ logMaxEntries CONFIG)%nat
  ∧ logs (recordAll es st)
    = take (logMaxEntries CONFIG) (reverse (stamped (logSeq st) es) ++ logs st)
  ∧ ∀ msg ty,
      logs (addLog msg ty (recordAll es st))
      = {| timestamp := logSeq st + length es; message := msg; log_type := ty;
           log_id := logSeq st + length es |}
          :: take (logMaxEntries CONFIG - 1) (logs (recordAll es st)).
Proof.
  intros Hlen. split; [by apply recordAll_length|].
  split; [by apply recordAll_logs|].
  intros msg ty. rewrite addLog_logs, recordAll_logSeq. reflexivity.
Qed.

Lemma addLog_bounded_newest_first_witness :
  (length (logs initialState) ≤ logMaxEntries CONFIG)%nat
  ∧ logs (recordAll [("first", info); ("second", error)] initialState)
    = take (logMaxEntries CONFIG)
        (reverse (stamped 0 [("first", info); ("second", error)]) ++ []).
Proof.
  split.
  - cbn. lia.
  - apply (addLog_bounded_newest_first [("first", info); ("second", error)] initialState).
    cbn. lia.
Defined.

(** ** Connectivity prober *)

(** The probe goes through exactly when the health request resolves with
    a status in the range 200-299 and a body that parses. *)
Lemma healthAttempt_Normal (net : FetchOutcome unit) :
  (∃ data, healthAttempt net = Normal data)
  ↔ ∃ response data, net = Resolved response
      ∧ (200 ≤ resp_status response ≤ 299)%nat
      ∧ json response = inr data.
Proof.
  unfold healthAttempt. destruct net as [m|response].
  { split; [intros [data H]; discriminate H|intros (r & d & H & _); discriminate H]. }
  assert (ok response = true ↔ (200 ≤ resp_status response ≤ 299)%nat) as Hok.
  { unfold ok. rewrite andb_true_iff, !Nat.leb_le. done. }
  destruct (ok response).
  - destruct (json response) as [m|data] eqn:Hj; split.
    + intros [d H]. discriminate H.
    + intros (r & d & [= <-] & _ & Hj'). congruence.
    + intros _. exists response, data. split; [done|]. split; [by apply Hok|done].
    + intros _. by exists data.
  - split; [intros [d H]; discriminate H|].
    intros (r & d & [= <-] & Hrange & _). apply Hok in Hrange. discriminate Hrange.
Qed.

(** C1, as the code has it. Every probe records exactly one log entry
    and sets the connection state, whether or not the outcome differs
    from the connection state before the probe. The probe returns [true]
    exactly when the health request resolves with a status in the range
    200-299 and a body that parses; then the state is connected and the
    entry is 'Master device connection established' with severity
    success. In every other case it returns [false], the state is
    disconnected and the entry is 'Master device connection failed: '
    followed by the reason, with severity error: the message of the
    rejection or of the parse error, or 'HTTP <status>: <statusText>' for
    a response that is not ok. *)
Theorem checkMasterConnection_logs_every_probe (net : FetchOutcome unit) (st : State) :
  let st' := (checkMasterConnection net st).1 in
  let reached := (checkMasterConnection net st).2 in
  (reached = true
   ↔ ∃ response data, net = Resolved response
       ∧ (200 ≤ resp_status response ≤ 299)%nat
       ∧ json response = inr data)
  ∧ masterStatus st' = (if reached then connected else disconnected)
  ∧ logged
      [if reached then ("Master device connection established", success)
       else ("Master device connection failed: "
               +:+ match net with
                   | Rejected m => m
                   | Resolved response =>
                     match json response with
                     | inl m =>
                       if ok response then m
                       else "HTTP " +:+ pretty (resp_status response) +:+ ": "
                              +:+ statusText response
                     | inr _ =>
                       "HTTP " +:+ pretty (resp_status response) +:+ ": "
                         +:+ statusText response
                     end
                   end,
             error)]
      st st'.
Proof.
  cbn zeta. split.
  - rewrite <- healthAttempt_Normal. unfold checkMasterConnection.
    destruct (healthAttempt net) as [data|m]; cbn [snd]; split; try done.
    + intros _. by exists data.
    + intros [data H]. discriminate H.
  - unfold checkMasterConnection, healthAttempt.
    destruct net as [m|response]; cbn [fst snd].
    { split; [reflexivity|]. apply logged_addLog_ext; by cbn. }
    destruct (ok response); [destruct (json response) as [m|data]|];
      cbn [fst snd]; (split; [reflexivity|]).
    + apply logged_addLog_ext; by cbn.
    + apply logged_addLog_ext; by cbn.
    + destruct (json response); apply logged_addLog_ext; by cbn.
Qed.

(** C1, counterexample: on a page that is connected, a probe that
    succeeds again leaves the connection state as it was and still adds
    an entry to the log. *)
Lemma repeated_probe_is_logged :
  masterStatus connectedState = connected
  ∧ masterStatus (checkMasterConnection healthy connectedState).1 = connected
  ∧ logs connectedState
    = [{| timestamp := 0; message := "Master device connection established";
          log_type := success; log_id := 0 |}]
  ∧ logs (checkMasterConnection healthy connectedState).1
    = [{| timestamp := 1; message := "Master device connection established";
          log_type := success; log_id := 1 |};
       {| timestamp := 0; message := "Master device connection established";
          log_type := success; log_id := 0 |}].
Proof. repeat split. Qed.

(** ** Command dispatcher: the guards *)

(** C5. Whenever the connection state is not connected, for every device
    type, command and parameters (and whatever the network would have
    answered), [sendDeviceCommand] hands no request to [fetch], records
    the failure in the log (two error entries: its own and the one of the
    notification), returns [false], and leaves the registry unchanged. *)
Theorem sendDeviceCommand_not_connected (deviceType command : string)
    (parameters : list (string * string))
    (net : FetchOutcome (option CommandResult)) (host : Host) (st : State) :
  masterStatus st ≠ connected →
  let st' := (sendDeviceCommand deviceType command parameters net host st).1 in
  requests st' = requests st
  ∧ (sendDeviceCommand deviceType command parameters net host st).2 = ReturnFalse
  ∧ deviceData st' = deviceData st
  ∧ masterStatus st' = masterStatus st
  ∧ logged [("Cannot send command: Master device not connected", error);
            ("Master device not connected", error)] st st'.
Proof.
  intros Hnc. unfold sendDeviceCommand, sendDeviceCommand_dispatch.
  destruct (masterStatus st) eqn:Hm; [congruence|]. cbn [fst snd].
  rewrite showNotification_requests, showNotification_deviceData,
    showNotification_masterStatus.
  repeat split; try done; apply logged_notified.
Qed.

Lemma sendDeviceCommand_not_connected_witness :
  masterStatus initialState ≠ connected
  ∧ (sendDeviceCommand "keylogger" "start_logging" [] (Rejected "unreachable")
       quietHost initialState).2 = ReturnFalse.
Proof.
  split.
  - discriminate.
  - apply (sendDeviceCommand_not_connected "keylogger" "start_logging" []
             (Rejected "unreachable") quietHost initialState).
    discriminate.
Defined.

(** While connected, [sendDeviceCommand] with a device type that names
    no property of the registry object - neither a key nor a member
    inherited from [Object.prototype] - hands no request to [fetch],
    records one error entry 'Unknown device type: <deviceType>', returns
    [false], and leaves the registry and every device record unchanged. *)
Lemma sendDeviceCommand_no_such_property (deviceType command : string)
    (parameters : list (string * string))
    (net : FetchOutcome (option CommandResult)) (host : Host) (st : State) :
  masterStatus st = connected →
  deviceType ∉ (deviceData st).*1 →
  deviceType ∉ objectPrototype.*1 →
  let st' := (sendDeviceCommand deviceType command parameters net host st).1 in
  requests st' = requests st
  ∧ (sendDeviceCommand deviceType command parameters net host st).2 = ReturnFalse
  ∧ deviceData st' = deviceData st
  ∧ logged [("Unknown device type: " +:+ deviceType, error)] st st'.
Proof.
  intros Hc Hnone Hproto. apply lookupDevice_None in Hnone.
  assert (inheritedMember deviceType objectPrototype = None) as Hmember.
  { revert Hproto. generalize objectPrototype as members.
    induction members as [|[k v] members IH]; intros Hk; [done|].
    rewrite fmap_cons in Hk. apply not_elem_of_cons in Hk as [Hne Hk]. cbn in *.
    destruct (String.eqb_spec k deviceType) as [->|_]; [done|]. by apply IH. }
  unfold sendDeviceCommand, sendDeviceCommand_dispatch, getDevice.
  rewrite Hc, Hnone, Hmember. cbn [fmap option_fmap option_map fst snd].
  repeat split; apply logged_addLog.
Qed.

Lemma sendDeviceCommand_no_such_property_witness :
  masterStatus connectedState = connected
  ∧ logged [("Unknown device type: printer", error)] connectedState
      (sendDeviceCommand "printer" "refresh" [] (Rejected "unreachable") quietHost
         connectedState).1.
Proof.
  split; [reflexivity|].
  apply (sendDeviceCommand_no_such_property "printer" "refresh" []
           (Rejected "unreachable") quietHost connectedState).
  - reflexivity.
  - apply lookupDevice_None. reflexivity.
  - apply (bool_decide_unpack _). by vm_compute.
Defined.

(** C9, the code at a failing input. The page is connected and
    'constructor' is not a key of the registry, but
    [deviceData['constructor']] is the inherited function [Object], which
    is truthy: the unknown-device guard does not answer. With a command
    off the allowlist the offline guard answers instead, with two warning
    entries about a device called Object and no 'Unknown device type'
    entry. With refresh, which is on the allowlist, the call goes on to
    dispatch: it logs the sending entry and hands a request to [fetch]. *)
Lemma inherited_name_passes_unknown_guard :
  masterStatus connectedState = connected
  ∧ ("constructor" ∉ (deviceData connectedState).*1)
  ∧ sendDeviceCommand "constructor" "start_logging" []
      (Rejected "unreachable") quietHost connectedState
    = (showNotification "Object is offline" warning
         (addLog "Cannot send start_logging to Object: Device is offline" warning
            connectedState),
       ReturnFalse)
  ∧ map (λ e, (message e, log_type e))
      (logs (sendDeviceCommand "constructor" "start_logging" []
               (Rejected "unreachable") quietHost connectedState).1)
    = [("Object is offline", warning);
       ("Cannot send start_logging to Object: Device is offline", warning);
       ("Master device connection established", success)]
  ∧ (sendDeviceCommand_dispatch "constructor" "refresh" [] connectedState).2 = true
  ∧ requests (sendDeviceCommand_dispatch "constructor" "refresh" [] connectedState).1
    = (requests connectedState
       ++ [{| req_method := "POST";
              req_url := "http://localhost:8080undefined/command";
              req_body := CommandBody "refresh" [] None |}])%list
  ∧ map (λ e, (message e, log_type e))
      (logs (sendDeviceCommand_dispatch "constructor" "refresh" [] connectedState).1)
    = [("Sending refresh command to Object", info);
       ("Master device connection established", success)].
Proof.
  split; [reflexivity|]. split; [apply lookupDevice_None; reflexivity|].
  repeat split.
Qed.

(** C6, as the code has it. While connected, for every known device
    whose status is not online and every command other than refresh and
    reconnect, [sendDeviceCommand] hands no request to [fetch], records
    warning entries (its own 'Cannot send ... Device is offline' and the
    one of the notification), returns [false], and leaves the registry
    unchanged. *)
Theorem sendDeviceCommand_device_offline (deviceType command : string)
    (parameters : list (string * string))
    (net : FetchOutcome (option CommandResult)) (host : Host) (st : State)
    (device : DeviceRecord) :
  masterStatus st = connected →
  lookupDevice deviceType (deviceData st) = Some device →
  status device ≠ "online" →
  command ∉ ["refresh"; "reconnect"] →
  let st' := (sendDeviceCommand deviceType command parameters net host st).1 in
  requests st' = requests st
  ∧ (sendDeviceCommand deviceType command parameters net host st).2 = ReturnFalse
  ∧ deviceData st' = deviceData st
  ∧ logged [("Cannot send " +:+ command +:+ " to " +:+ name device
               +:+ ": Device is offline", warning);
            (name device +:+ " is offline", warning)] st st'.
Proof.
  intros Hc Hdev Hoff Hcmd.
  unfold sendDeviceCommand, sendDeviceCommand_dispatch, getDevice. rewrite Hc, Hdev.
  cbn [isOnline viewOf v_status v_name show default].
  destruct (String.eqb_spec (status device) "online") as [|_]; [done|].
  assert (existsb (String.eqb command) ["refresh"; "reconnect"] = false) as ->.
  { cbn [existsb].
    destruct (String.eqb_spec command "refresh") as [->|_];
      [exfalso; apply Hcmd; apply elem_of_cons; by left|].
    destruct (String.eqb_spec command "reconnect") as [->|_];
      [exfalso; apply Hcmd; apply elem_of_cons; right; apply elem_of_cons; by left|].
    reflexivity. }
  cbn [negb andb fst snd].
  rewrite showNotification_requests, showNotification_deviceData.
  repeat split; apply logged_notified.
Qed.

Lemma sendDeviceCommand_device_offline_witness :
  masterStatus connectedState = connected
  ∧ (sendDeviceCommand "keylogger" "start_logging" [] (Rejected "unreachable")
       quietHost connectedState).2 = ReturnFalse.
Proof.
  split; [reflexivity|].
  apply (sendDeviceCommand_device_offline "keylogger" "start_logging" []
           (Rejected "unreachable") quietHost connectedState
           (mkDevice "device1" "Keylogger" "/keylogger" "keylogger"
              ["start_logging"; "stop_logging"; "download_logs"; "clear_buffer"])).
  - reflexivity.
  - reflexivity.
  - cbn. discriminate.
  - intros Hin. apply list_elem_of_In in Hin. cbn in Hin.
    destruct Hin as [H|[H|[]]]; discriminate H.
Defined.

(** C6, counterexample: the keylogger is offline and start_logging is
    not on the allowlist, but the page is not connected; the first guard
    answers, and no entry of the resulting log has severity warning. *)
Lemma offline_command_while_disconnected_logs_errors :
  (∃ device, lookupDevice "keylogger" (deviceData initialState) = Some device
             ∧ status device ≠ "online")
  ∧ ("start_logging" ∉ ["refresh"; "reconnect"])
  ∧ map (λ e, (message e, log_type e))
      (logs (sendDeviceCommand "keylogger" "start_logging" [] (Rejected "unreachable")
               quietHost initialState).1)
    = [("Master device not connected", error);
       ("Cannot send command: Master device not connected", error)].
Proof.
  split; [|split].
  - eexists. split; [reflexivity|]. cbn. discriminate.
  - intros Hin. apply list_elem_of_In in Hin. cbn in Hin.
    destruct Hin as [H|[H|[]]]; discriminate H.
  - reflexivity.
Qed.

(** ** Command dispatcher: the busy marker *)

Lemma handleCommandResponse_dom deviceType command result host st :
  dom (handleCommandResponse deviceType command result host st).1 = dom st.
Proof.
  unfold handleCommandResponse.
  repeat (case_match; cbn [fst]; try reflexivity).
Qed.

Lemma commandDispatched_dom device command parameters st :
  dom (commandDispatched device command parameters st)
  = dom (classList_add (show (v_id device)) "loading" st).
Proof.
  unfold commandDispatched, fetch, classList_add. cbn [dom set_requests].
  rewrite addLog_dom. by destruct (dom st !! show (v_id device)).
Qed.

Lemma commandDispatched_deviceData device command parameters st :
  deviceData (commandDispatched device command parameters st) = deviceData st.
Proof.
  unfold commandDispatched, fetch, classList_add. cbn [deviceData set_requests].
  by destruct (dom _ !! show (v_id device)).
Qed.

Lemma commandSettled_dom device deviceType command net host st :
  dom (commandSettled device deviceType command net host st).1 = dom st.
Proof.
  unfold commandSettled.
  destruct net as [m|response]; [reflexivity|].
  destruct (json response) as [m|result]; [reflexivity|].
  destruct (ok response).
  - match goal with
    | |- context [handleCommandResponse ?a ?b ?c ?d ?s] =>
        pose proof (handleCommandResponse_dom a b c d s) as Hh;
        destruct (handleCommandResponse a b c d s) as [st6 [[]|m]]
    end; cbn [fst] in *.
    + destruct (setTimeout_fault host); cbn [fst dom set_timers];
        rewrite Hh; reflexivity.
    + rewrite Hh. reflexivity.
  - destruct result; reflexivity.
Qed.

Lemma commandFailed_dom device command m st :
  dom (commandFailed device command m st) = dom st.
Proof. reflexivity. Qed.

Lemma classList_add_remove i c st :
  dom (classList_remove i c (classList_add i c st)) !! i
  = (λ classes, classes ∖ {[c]}) <$> dom st !! i.
Proof.
  unfold classList_remove, classList_add.
  destruct (dom st !! i) as [classes|] eqn:Hi; cbn [dom set_dom].
  - rewrite lookup_insert_eq. cbn [dom set_dom].
    rewrite lookup_insert_eq. cbn. f_equal.
    apply set_eq. intros x.
    rewrite !elem_of_difference, elem_of_union, elem_of_singleton. tauto.
  - rewrite Hi. cbn. exact Hi.
Qed.

(** Removal depends on the state through the page only. *)
Lemma classList_remove_dom_ext i c st1 st2 :
  dom st1 = dom st2 → dom (classList_remove i c st1) = dom (classList_remove i c st2).
Proof.
  intros H. unfold classList_remove. rewrite H.
  destruct (dom st2 !! i); cbn [dom set_dom]; by rewrite ?H.
Qed.

(** The second step of a call, whatever the request came to, changes of
    the page exactly this: it takes the marker off the element that the
    device's id names at that moment. *)
Lemma sendDeviceCommand_settle_dom deviceType command net host st device :
  lookupDevice deviceType (deviceData st) = Some device →
  dom (sendDeviceCommand_settle deviceType command net host st).1
  = dom (classList_remove (id device) "loading" st).
Proof.
  intros Hdev. unfold sendDeviceCommand_settle, getDevice. rewrite Hdev.
  pose proof (commandSettled_dom (viewOf device) deviceType command net host st) as Hdom.
  destruct (commandSettled (viewOf device) deviceType command net host st)
    as [st1 completion]. cbn [fst] in Hdom.
  unfold commandDone. change (show (v_id (viewOf device))) with (id device).
  destruct completion as [result|m]; cbn [fst]; apply classList_remove_dom_ext.
  - exact Hdom.
  - rewrite commandFailed_dom. exact Hdom.
Qed.

(** A call of [sendDeviceCommand] that passes the guards and during
    which nothing else runs ends with the loading marker cleared from the
    device's page element, whatever happens to the request: it is
    rejected, the body does not parse, the response is not ok, the
    response handler throws (a null body, or a host fault in the
    download click), or scheduling the follow-up refresh throws. The page
    element keeps its other classes, and during dispatch the marker was
    set on it. *)
Lemma uninterrupted_command_clears_loading (deviceType command : string)
    (parameters : list (string * string))
    (net : FetchOutcome (option CommandResult)) (host : Host) (st : State)
    (device : DeviceRecord) :
  masterStatus st = connected →
  lookupDevice deviceType (deviceData st) = Some device →
  status device = "online" ∨ command ∈ ["refresh"; "reconnect"] →
  let st' := (sendDeviceCommand deviceType command parameters net host st).1 in
  (sendDeviceCommand_dispatch deviceType command parameters st).2 = true
  ∧ ¬ hasClass (id device) "loading" st'
  ∧ dom st' !! id device = (λ classes, classes ∖ {["loading"]}) <$> dom st !! id device
  ∧ (is_Some (dom st !! id device) →
     hasClass (id device) "loading"
       (sendDeviceCommand_dispatch deviceType command parameters st).1).
Proof.
  intros Hc Hdev Hgo.
  assert (sendDeviceCommand_dispatch deviceType command parameters st
          = (commandDispatched (viewOf device) command parameters st, true)) as Hdispatch.
  { unfold sendDeviceCommand_dispatch, getDevice. rewrite Hc, Hdev.
    cbn [isOnline viewOf v_status].
    assert (negb (status device =? "online")
            && negb (existsb (String.eqb command) ["refresh"; "reconnect"]) = false) as ->.
    { destruct Hgo as [->|Hin]; [reflexivity|].
      apply andb_false_iff. right. apply negb_false_iff.
      apply existsb_exists. exists command. split.
      - by apply list_elem_of_In.
      - apply String.eqb_refl. }
    reflexivity. }
  unfold sendDeviceCommand. rewrite Hdispatch. cbn [fst snd].
  assert (dom (sendDeviceCommand_settle deviceType command net host
                 (commandDispatched (viewOf device) command parameters st)).1
            !! id device
          = (λ classes, classes ∖ {["loading"]}) <$> dom st !! id device) as Hfinal.
  { rewrite (sendDeviceCommand_settle_dom _ _ _ _ _ device)
      by (by rewrite commandDispatched_deviceData).
    rewrite <- (classList_add_remove (id device) "loading" st).
    f_equal. apply classList_remove_dom_ext.
    apply (commandDispatched_dom (viewOf device)). }
  split; [reflexivity|]. split; [|split; [exact Hfinal|]].
  - intros (classes & Hl & Hin). rewrite Hfinal in Hl.
    destruct (dom st !! id device); cbn in Hl; [|discriminate].
    injection Hl as <-. apply elem_of_difference in Hin as [_ Hin].
    apply Hin. by apply elem_of_singleton.
  - intros [classes Hsome]. unfold hasClass.
    rewrite (commandDispatched_dom (viewOf device)).
    change (show (v_id (viewOf device))) with (id device).
    unfold classList_add. rewrite Hsome. cbn [dom set_dom].
    rewrite lookup_insert_eq. eexists.
    split; [reflexivity|]. apply elem_of_union_l. by apply elem_of_singleton.
Qed.

(** C7, the code at a failing input. Every device is online and a
    start_logging command for the keylogger is dispatched: the marker is
    set on the element device1, which the keylogger's id names. While the
    request is in flight a bulk sync runs; every device reports online,
    and the keylogger's answer carries device_info {id: 'device2'}, which
    [Object.assign] copies onto the record. The [finally] block reads [device.id] again, finds
    device2 and takes the marker off that element: whether the command
    succeeds or fails, device1 keeps the marker after the call has
    returned. *)
Lemma loading_marker_left_after_id_change :
  masterStatus allOnline = connected
  ∧ (∃ device, lookupDevice "keylogger" (deviceData allOnline) = Some device
               ∧ status device = "online" ∧ id device = "device1")
  ∧ ¬ hasClass "device1" "loading" allOnline
  ∧ sendDeviceCommand_dispatch "keylogger" "start_logging" [] allOnline
    = (commandInFlight, true)
  ∧ hasClass "device1" "loading" commandInFlight
  ∧ getAllDevicesStatus idChanges commandInFlight = (syncedInFlight, true)
  ∧ id <$> lookupDevice "keylogger" (deviceData syncedInFlight) = Some "device2"
  ∧ (let done := sendDeviceCommand_settle "keylogger" "start_logging"
                   (respond 200 "OK" (Some emptyResult)) quietHost syncedInFlight in
     done.2 = ReturnResult (Some emptyResult)
     ∧ hasClass "device1" "loading" done.1)
  ∧ (let done := sendDeviceCommand_settle "keylogger" "start_logging"
                   (Rejected "Failed to fetch") quietHost syncedInFlight in
     done.2 = ReturnFalse
     ∧ hasClass "device1" "loading" done.1).
Proof.
  assert (dom syncedInFlight = <["device1" := {["loading"]} ∪ ∅]> initialDom) as Hdom.
  { reflexivity. }
  assert (lookupDevice "keylogger" (deviceData syncedInFlight)
          = Some (Object_assign
                    (mergeStatus
                       (mergeStatus
                          (mkDevice "device1" "Keylogger" "/keylogger" "keylogger"
                             ["start_logging"; "stop_logging"; "download_logs";
                              "clear_buffer"])
                          onlineData)
                       idInInfo)
                    [F_id "device2"])) as Hdev.
  { reflexivity. }
  assert (∀ net, hasClass "device1" "loading"
                   (sendDeviceCommand_settle "keylogger" "start_logging" net quietHost
                      syncedInFlight).1) as Hleft.
  { intros net. unfold hasClass.
    rewrite (sendDeviceCommand_settle_dom _ _ _ _ _ _ Hdev).
    unfold classList_remove. rewrite Hdom. cbn [Object_assign foldl assignField id].
    exists ({["loading"]} ∪ ∅). split; [reflexivity|].
    apply elem_of_union_l. by apply elem_of_singleton. }
  split; [by vm_compute|]. split.
  { eexists. split; [by vm_compute|]. split; by vm_compute. }
  split.
  { intros (classes & Hl & Hin).
    assert (dom allOnline !! "device1" = Some ∅) as Hl' by (by vm_compute).
    rewrite Hl' in Hl. injection Hl as <-. by apply elem_of_empty in Hin. }
  split; [by vm_compute|]. split.
  { exists ({["loading"]} ∪ ∅). split; [by vm_compute|].
    apply elem_of_union_l. by apply elem_of_singleton. }
  split; [by vm_compute|]. split; [by vm_compute|].
  split; (split; [by vm_compute|apply Hleft]).
Qed.

(** ** Status synchroniser: the two operations *)

Section Sync.

Variable net : string → FetchOutcome (option StatusData).

Lemma getAllDevicesStatus_connected st :
  masterStatus st = connected →
  getAllDevicesStatus net st
  = match forEachResult (map (resultFor net) (deviceData st))
            (set_requests (requests st ++ map statusRequest (deviceData st)) st) with
    | (st2, None) => (st2, true)
    | (st2, Some _) => (addLog "Failed to update device status" error st2, false)
    end.
Proof. intros Hc. unfold getAllDevicesStatus. by rewrite Hc. Qed.

Lemma getAllDevicesStatus_records st :
  NoDup (deviceData st).*1 →
  (∀ e, e ∈ deviceData st →
     lookupDevice e.1 (deviceData (getAllDevicesStatus net st).1) = Some e.2
     ∨ ∃ data, r_status (resultFor net e) = Some data
         ∧ lookupDevice e.1 (deviceData (getAllDevicesStatus net st).1)
           = Some (finalRecord e.2 data))
  ∧ ((getAllDevicesStatus net st).2 = true →
       ∀ e, e ∈ deviceData st →
         ∃ data, r_status (resultFor net e) = Some data
           ∧ lookupDevice e.1 (deviceData (getAllDevicesStatus net st).1)
             = Some (finalRecord e.2 data))
  ∧ (masterStatus st = connected →
     (∀ e, e ∈ deviceData st → r_status (resultFor net e) ≠ None) →
     (getAllDevicesStatus net st).2 = true).
Proof.
  intros Hnd.
  destruct (masterStatus st) eqn:Hc.
  - rewrite getAllDevicesStatus_connected by done.
    set (st1 := set_requests _ st).
    destruct (forEachResult_records net (deviceData st) st1 Hnd)
      as (_ & Hout & Hall & Hexn & _).
    { intros e He. by apply lookupDevice_elem; [|destruct e]. }
    destruct (forEachResult (map (resultFor net) (deviceData st)) st1)
      as [st2 [m|]]; cbn [fst snd] in *.
    + split; [exact Hout|]. split; [done|]. intros _ Hnonnull.
      destruct Hexn as [?|(e & He & Hnull)]; [done|]. by destruct (Hnonnull e He).
    + split; [exact Hout|]. split; [intros _; by apply Hall|]. done.
  - unfold getAllDevicesStatus. rewrite Hc. cbn [fst snd].
    split; [|split; done].
    intros e He. left. by apply lookupDevice_elem; [|destruct e].
Qed.

Lemma getAllDevicesStatus_logged st :
  NoDup (deviceData st).*1 →
  (∀ e data, e ∈ deviceData st → r_status (resultFor net e) = Some data →
     lastField pickStatus (infoOf data) = None) →
  logged
    (flat_map
       (λ e, transitionLog bulkWording e.2
               (lookupDevice e.1 (deviceData (getAllDevicesStatus net st).1)))
       (deviceData st)
     ++ abortLog st (getAllDevicesStatus net st).2)
    st (getAllDevicesStatus net st).1.
Proof.
  intros Hnd Hinfo. unfold abortLog.
  destruct (masterStatus st) eqn:Hc.
  - rewrite getAllDevicesStatus_connected by done.
    set (st1 := set_requests _ st).
    assert (∀ e, e ∈ deviceData st → lookupDevice e.1 (deviceData st1) = Some e.2) as Hpre.
    { intros e He. by apply lookupDevice_elem; [|destruct e]. }
    pose proof (forEachResult_logged net (deviceData st) st1 Hnd Hpre Hinfo) as Hlog.
    assert (logged [] st st1) as H0 by (by apply logged_nil).
    pose proof (logged_trans _ _ _ _ _ H0 Hlog) as Hlog'. cbn [app] in Hlog'.
    destruct (forEachResult (map (resultFor net) (deviceData st)) st1)
      as [st2 [m|]]; cbn [fst snd] in *.
    + apply (logged_trans _ _ st st2); [exact Hlog'|apply logged_addLog].
    + by rewrite app_nil_r.
  - unfold getAllDevicesStatus. rewrite Hc. cbn [fst snd]. rewrite app_nil_r.
    rewrite flat_map_all_nil; [by apply logged_nil|].
    intros e He. rewrite (lookupDevice_elem e.1 e.2); [|done|by destruct e].
    apply transitionLog_same.
Qed.

End Sync.

Lemma refreshSingleDevice_cases deviceType net st device :
  lookupDevice deviceType (deviceData st) = Some device →
  (∃ data, fetched net data
     ∧ deviceData (refreshSingleDevice deviceType net st).1
       = updateDevice deviceType (mergeStatus device data) (deviceData st)
     ∧ logged (transitionLog singleWording device (Some (mergeStatus device data)))
         st (refreshSingleDevice deviceType net st).1
     ∧ (refreshSingleDevice deviceType net st).2 = Some true)
  ∨ ((∀ data, ¬ fetched net data)
     ∧ deviceData (refreshSingleDevice deviceType net st).1 = deviceData st
     ∧ logged [] st (refreshSingleDevice deviceType net st).1
     ∧ (refreshSingleDevice deviceType net st).2 ≠ Some true).
Proof.
  intros Hdev. unfold refreshSingleDevice. rewrite Hdev.
  destruct net as [m|response].
  { right. cbn [fst snd]. repeat split; try done.
    intros data (r & Hr & _). discriminate Hr. }
  destruct (ok response) eqn:Hok.
  2:{ right. cbn [fst snd]. repeat split; try done.
      intros data (r & [= <-] & Hok' & _). congruence. }
  destruct (json response) as [m|[data|]] eqn:Hjson.
  - right. cbn [fst snd]. repeat split; try done.
    intros data (r & [= <-] & _ & Hj). congruence.
  - left. exists data. cbn [fst snd]. split; [by exists response|].
    unfold logStatusChange, transitionLog.
    destruct (status device =? status (mergeStatus device data)) eqn:Hsame;
      cbn [negb deviceData set_deviceData addLog set_logs fetch set_requests].
    + split; [done|]. split; [by apply logged_nil|done].
    + split; [done|]. split; [|done].
      split; [|cbn; lia]. cbn [recordAll foldl fst snd]. by apply addLog_logs_ext.
  - right. cbn [fst snd]. repeat split; try done.
    intros data (r & [= <-] & _ & Hj). congruence.
Qed.

(** The keys of the registry are those it started with: a sync replaces
    records in place. *)
Lemma applyStatusResult_keys r st st' :
  applyStatusResult r st = Normal st' → (deviceData st').*1 = (deviceData st).*1.
Proof.
  unfold applyStatusResult, logStatusChange.
  destruct (lookupDevice (r_deviceType r) (deviceData st)); [|by intros [= <-]].
  destruct (r_status r) as [data|]; [|discriminate].
  destruct (device_info data), (negb _); intros [= <-];
    cbn [deviceData set_deviceData addLog set_logs];
    by rewrite ?updateDevice_keys.
Qed.

Lemma forEachResult_keys rs st :
  (deviceData (forEachResult rs st).1).*1 = (deviceData st).*1.
Proof.
  revert st. induction rs as [|r rs IH]; intros st; cbn [forEachResult]; [done|].
  destruct (applyStatusResult r st) as [st'|m] eqn:Hr; [|done].
  rewrite IH. by apply (applyStatusResult_keys r).
Qed.

Lemma getAllDevicesStatus_keys net st :
  (deviceData (getAllDevicesStatus net st).1).*1 = (deviceData st).*1.
Proof.
  unfold getAllDevicesStatus. destruct (masterStatus st); [|done].
  match goal with |- context [forEachResult ?rs ?s] =>
    pose proof (forEachResult_keys rs s) as Hk;
    destruct (forEachResult rs s) as [st2 [m|]] end; exact Hk.
Qed.

Lemma refreshSingleDevice_keys deviceType net st :
  (deviceData (refreshSingleDevice deviceType net st).1).*1 = (deviceData st).*1.
Proof.
  destruct (lookupDevice deviceType (deviceData st)) as [device|] eqn:Hdev.
  - destruct (refreshSingleDevice_cases deviceType net st device Hdev)
      as [(data & _ & -> & _)|(_ & -> & _)]; [apply updateDevice_keys|done].
  - unfold refreshSingleDevice. rewrite Hdev.
    by destruct (inheritedMember deviceType objectPrototype).
Qed.

Lemma connectedState_keys_NoDup : NoDup (deviceData connectedState).*1.
Proof. apply (bool_decide_unpack _). by vm_compute. Qed.

Lemma allOnline_keys_NoDup : NoDup (deviceData allOnline).*1.
Proof. apply (bool_decide_unpack _). by vm_compute. Qed.

(** Where the transition check sees the status the sync leaves behind,
    every transition is logged once. For both sync operations the log
    gains, for every device, exactly one entry when the device's status
    after the sync differs from its status before - of severity success
    when the new status is online, warning otherwise (offline in
    particular) - and no entry when the status is the same. For
    [refreshSingleDevice] this holds of every answer of the network. For
    [getAllDevicesStatus] it holds when no response carries a status
    inside its [device_info]; the entries come in registry order,
    followed by the one error entry of a sync that was cut short. *)
Lemma status_transition_logged_once
    (net : string → FetchOutcome (option StatusData))
    (single : FetchOutcome (option StatusData)) (deviceType : string) (st : State) :
  NoDup (deviceData st).*1 →
  (∀ e data, e ∈ deviceData st → r_status (resultFor net e) = Some data →
     lastField pickStatus (infoOf data) = None) →
  logged
    (flat_map
       (λ e, transitionLog bulkWording e.2
               (lookupDevice e.1 (deviceData (getAllDevicesStatus net st).1)))
       (deviceData st)
     ++ abortLog st (getAllDevicesStatus net st).2)
    st (getAllDevicesStatus net st).1
  ∧ (∀ device, lookupDevice deviceType (deviceData st) = Some device →
       logged
         (transitionLog singleWording device
            (lookupDevice deviceType
               (deviceData (refreshSingleDevice deviceType single st).1)))
         st (refreshSingleDevice deviceType single st).1).
Proof.
  intros Hnd Hinfo. split; [by apply getAllDevicesStatus_logged|].
  intros device Hdev.
  destruct (refreshSingleDevice_cases deviceType single st device Hdev)
    as [(data & _ & Hdd & Hlog & _)|(_ & Hdd & Hlog & _)]; rewrite Hdd.
  - by rewrite (lookupDevice_update_eq deviceType device).
  - by rewrite Hdev, transitionLog_same.
Qed.

Lemma status_transition_logged_once_witness :
  NoDup (deviceData connectedState).*1
  ∧ logged
      (flat_map
         (λ e, transitionLog bulkWording e.2
                 (lookupDevice e.1
                    (deviceData (getAllDevicesStatus (allAnswer onlineData)
                                   connectedState).1)))
         (deviceData connectedState)
       ++ abortLog connectedState
            (getAllDevicesStatus (allAnswer onlineData) connectedState).2)
      connectedState (getAllDevicesStatus (allAnswer onlineData) connectedState).1.
Proof.
  split; [exact connectedState_keys_NoDup|].
  apply (status_transition_logged_once (allAnswer onlineData)
           (respond 200 "OK" (Some onlineData)) "keylogger" connectedState).
  - exact connectedState_keys_NoDup.
  - intros e data _ H. cbn in H. injection H as <-. reflexivity.
Defined.

(** C2, the code at a failing input. The keylogger is offline and the
    server answers its status request with
    [{status: "offline", device_info: {status: "online"}}]. The bulk sync
    compares and logs before [Object.assign] copies [device_info] onto
    the record, so the check misses the status written there. A first
    bulk sync leaves the keylogger online, a transition from offline to
    online, and the log is what it was. A second bulk sync with the same
    answer leaves the keylogger online as it was, and adds a warning
    entry 'Status changed from online to offline' to the log. *)
Lemma info_status_changes_silently :
  status <$> lookupDevice "keylogger" (deviceData connectedState) = Some "offline"
  ∧ status <$> lookupDevice "keylogger" (deviceData infoOnce) = Some "online"
  ∧ logs infoOnce = logs connectedState
  ∧ status <$> lookupDevice "keylogger" (deviceData infoTwice) = Some "online"
  ∧ logs infoTwice
    = {| timestamp := 1; message := "Keylogger: Status changed from online to offline";
         log_type := warning; log_id := 1 |} :: logs infoOnce.
Proof. repeat split. Qed.

(** C3, as the code has it. After a successful status fetch whose body is
    the object [data], the device's instances are exactly a list carried
    by the response, and nothing of the list stored before is kept. For
    [refreshSingleDevice] it is the top-level [instances], the empty list
    when there is none. For a [getAllDevicesStatus] that completes it is
    the [instances] inside [device_info] when the response has one there,
    and the top-level [instances] (or the empty list) otherwise. *)
Theorem instances_replaced_by_fetched
    (net : string → FetchOutcome (option StatusData))
    (single : FetchOutcome (option StatusData)) (deviceType : string) (st : State) :
  NoDup (deviceData st).*1 →
  ((getAllDevicesStatus net st).2 = true →
   ∀ e data, e ∈ deviceData st → fetched (net e.1) data →
     ∃ d', lookupDevice e.1 (deviceData (getAllDevicesStatus net st).1) = Some d'
           ∧ instances d'
             = default (orEmpty (s_instances data))
                 (lastField pickInstances (infoOf data)))
  ∧ (∀ device data, lookupDevice deviceType (deviceData st) = Some device →
       fetched single data →
       ∃ d', lookupDevice deviceType
               (deviceData (refreshSingleDevice deviceType single st).1) = Some d'
             ∧ instances d' = orEmpty (s_instances data)).
Proof.
  intros Hnd. split.
  - intros Hdone e data He Hfetched.
    destruct (getAllDevicesStatus_records net st Hnd) as (_ & Hall & _).
    destruct (Hall Hdone e He) as (data' & Hres & Hlook).
    unfold resultFor in Hres. rewrite (statusResult_fetched _ _ data) in Hres by done.
    injection Hres as <-.
    eexists. split; [exact Hlook|].
    unfold finalRecord. by rewrite Object_assign_instances.
  - intros device data Hdev Hfetched.
    destruct (refreshSingleDevice_cases deviceType single st device Hdev)
      as [(data' & Hfetched' & Hdd & _)|(Hnot & _)]; [|by destruct (Hnot data)].
    assert (data' = data) as ->.
    { destruct Hfetched as (r & -> & _ & Hj), Hfetched' as (r' & [= <-] & _ & Hj').
      congruence. }
    eexists. split.
    + rewrite Hdd. by apply (lookupDevice_update_eq deviceType device).
    + reflexivity.
Qed.

Lemma instances_replaced_by_fetched_witness :
  NoDup (deviceData allOnline).*1
  ∧ ∃ d', lookupDevice "keylogger"
            (deviceData (refreshSingleDevice "keylogger"
                           (respond 200 "OK" (Some instancesInInfo)) allOnline).1)
          = Some d'
          ∧ instances d' = [i1].
Proof.
  split; [exact allOnline_keys_NoDup|].
  destruct (instances_replaced_by_fetched (allAnswer onlineData)
              (respond 200 "OK" (Some instancesInInfo)) "keylogger" allOnline
              allOnline_keys_NoDup) as [_ Hsingle].
  apply (Hsingle
           (finalRecord
              (mkDevice "device1" "Keylogger" "/keylogger" "keylogger"
                 ["start_logging"; "stop_logging"; "download_logs"; "clear_buffer"])
              onlineData)
           instancesInInfo).
  - reflexivity.
  - eexists. split; [reflexivity|]. split; reflexivity.
Defined.

(** C3, counterexample: the server answers the bulk sync with
    [{status: "online", instances: [i1], device_info: {instances: [i2]}}];
    the fetch succeeds, the sync completes, and the keylogger ends with
    the instances of [device_info], not with the instance list [i1] of the
    response. *)
Lemma info_instances_override :
  fetched (allAnswer instancesInInfo "keylogger") instancesInInfo
  ∧ s_instances instancesInInfo = Some [i1]
  ∧ (getAllDevicesStatus (allAnswer instancesInInfo) connectedState).2 = true
  ∧ instances <$> lookupDevice "keylogger"
                    (deviceData (getAllDevicesStatus (allAnswer instancesInInfo)
                                   connectedState).1) = Some [i2].
Proof.
  split; [|repeat split].
  eexists. split; [reflexivity|]. split; reflexivity.
Qed.

(** C10, as the code has it. A sync leaves a device's [lastSeen] as it
    was whenever the status object it merges has no truthy [last_seen]
    and, in [getAllDevicesStatus], no [lastSeen] inside its [device_info].
    The status object of a failed fetch is of this kind, so a device that
    goes offline through a failed fetch keeps its timestamp. *)
Theorem lastSeen_kept_without_last_seen
    (net : string → FetchOutcome (option StatusData))
    (single : FetchOutcome (option StatusData)) (deviceType : string) (st : State) :
  NoDup (deviceData st).*1 →
  (∀ e, e ∈ deviceData st →
     (∀ data, r_status (resultFor net e) = Some data →
        truthy (last_seen data) = false
        ∧ lastField pickLastSeen (infoOf data) = None) →
     ∃ d', lookupDevice e.1 (deviceData (getAllDevicesStatus net st).1) = Some d'
           ∧ lastSeen d' = lastSeen e.2)
  ∧ (∀ e, e ∈ deviceData st → fetchFailed (net e.1) →
       ∃ d', lookupDevice e.1 (deviceData (getAllDevicesStatus net st).1) = Some d'
             ∧ lastSeen d' = lastSeen e.2)
  ∧ (∀ device, lookupDevice deviceType (deviceData st) = Some device →
       (∀ data, fetched single data → truthy (last_seen data) = false) →
       ∃ d', lookupDevice deviceType
               (deviceData (refreshSingleDevice deviceType single st).1) = Some d'
             ∧ lastSeen d' = lastSeen device).
Proof.
  intros Hnd.
  assert (∀ e, e ∈ deviceData st →
            (∀ data, r_status (resultFor net e) = Some data →
               truthy (last_seen data) = false
               ∧ lastField pickLastSeen (infoOf data) = None) →
            ∃ d', lookupDevice e.1 (deviceData (getAllDevicesStatus net st).1) = Some d'
                  ∧ lastSeen d' = lastSeen e.2) as Hbulk.
  { intros e He Hlacks.
    destruct (getAllDevicesStatus_records net st Hnd) as (Hout & _).
    destruct (Hout e He) as [Hsame|(data & Hres & Hlook)]; [by eexists|].
    eexists. split; [exact Hlook|].
    destruct (Hlacks data Hres) as [Hfalsy Hinfo].
    unfold finalRecord. rewrite Object_assign_lastSeen, Hinfo. cbn.
    unfold orOptString, truthy in *.
    destruct (last_seen data) as [s|]; [|done].
    by destruct (s =? ""). }
  split; [exact Hbulk|]. split.
  - intros e He Hfailed. apply Hbulk; [done|].
    intros data Hres. unfold resultFor in Hres.
    rewrite statusResult_failed in Hres by done. by injection Hres as <-.
  - intros device Hdev Hlacks.
    destruct (refreshSingleDevice_cases deviceType single st device Hdev)
      as [(data & Hfetched & Hdd & _)|(_ & Hdd & _)]; rewrite Hdd.
    + eexists. split; [by apply (lookupDevice_update_eq deviceType device)|].
      specialize (Hlacks data Hfetched). cbn.
      unfold orOptString, truthy in *.
      destruct (last_seen data) as [s|]; [|done].
      by destruct (s =? "").
    + by eexists.
Qed.

Lemma lastSeen_kept_without_last_seen_witness :
  NoDup (deviceData allOnline).*1
  ∧ fetchFailed (injectorDown "keystroke_injector")
  ∧ ∃ d', lookupDevice "keystroke_injector"
            (deviceData (getAllDevicesStatus injectorDown allOnline).1) = Some d'
          ∧ lastSeen d' = Some "2024-09-22T10:30:00Z".
Proof.
  split; [exact allOnline_keys_NoDup|]. split; [exact I|].
  destruct (lastSeen_kept_without_last_seen injectorDown (Rejected "Failed to fetch")
              "keystroke_injector" allOnline allOnline_keys_NoDup)
    as (_ & Hfailed & _).
  apply (Hfailed
           ("keystroke_injector",
            finalRecord
              (mkDevice "device2" "Keystroke Injector" "/keystroke-injector"
                 "keystroke_injector"
                 ["inject_payload"; "load_script"; "stop_injection"; "list_payloads"])
              onlineData)).
  - apply list_elem_of_In. cbn. right. left. reflexivity.
  - exact I.
Defined.

(** C10, counterexample: the server answers the bulk sync with
    [{status: "online", device_info: {lastSeen: ...}}], a response with
    no [last_seen]; the keylogger's [lastSeen] is overwritten all the
    same. *)
Lemma info_lastSeen_override :
  last_seen lastSeenInInfo = None
  ∧ lastSeen <$> lookupDevice "keylogger" (deviceData allOnline)
    = Some (Some "2024-09-22T10:30:00Z")
  ∧ lastSeen <$> lookupDevice "keylogger"
                   (deviceData (getAllDevicesStatus (allAnswer lastSeenInInfo)
                                  allOnline).1)
    = Some (Some "2030-01-01T00:00:00Z").
Proof. repeat split. Qed.

(** ** Status synchroniser: isolation of failures *)

(** When no body of the batch is [null], a bulk sync on a connected page
    completes; a device whose fetch failed ends offline, with the reason
    in the status object of its result; and the record every device ends
    with is the merge of its own result into its own record. *)
Lemma getAllDevicesStatus_isolates_failures
    (net : string → FetchOutcome (option StatusData)) (st : State) :
  masterStatus st = connected →
  NoDup (deviceData st).*1 →
  (∀ e, e ∈ deviceData st → r_status (resultFor net e) ≠ None) →
  (getAllDevicesStatus net st).2 = true
  ∧ (∀ e, e ∈ deviceData st →
       ∃ data, r_status (resultFor net e) = Some data
         ∧ lookupDevice e.1 (deviceData (getAllDevicesStatus net st).1)
           = Some (finalRecord e.2 data))
  ∧ (∀ e, e ∈ deviceData st → fetchFailed (net e.1) →
       r_status (resultFor net e) = Some (offlineStatus (failureReason (net e.1)))
       ∧ status <$> lookupDevice e.1 (deviceData (getAllDevicesStatus net st).1)
         = Some "offline").
Proof.
  intros Hc Hnd Hnonnull.
  destruct (getAllDevicesStatus_records net st Hnd) as (_ & Hall & Hdone).
  specialize (Hdone Hc Hnonnull). split; [exact Hdone|].
  split; [by apply Hall|].
  intros e He Hfailed.
  destruct (Hall Hdone e He) as (data & Hres & Hlook).
  unfold resultFor in Hres. rewrite statusResult_failed in Hres by done.
  injection Hres as <-. split.
  - unfold resultFor. by rewrite statusResult_failed.
  - by rewrite Hlook.
Qed.

(** C4, the code at the failing input. Every device is online; the
    keylogger, first in the registry, answers 200 with the body [null]
    and the request of the keystroke injector is rejected. Reading the
    status off the null body throws inside the loop over the results, the
    loop ends there, the outer handler logs the failure and the sync
    returns [false]: the keystroke injector, whose fetch failed, is still
    online. *)
Lemma null_body_aborts_bulk_sync :
  masterStatus allOnline = connected
  ∧ fetchFailed (nullThenDown "keystroke_injector")
  ∧ status <$> lookupDevice "keystroke_injector" (deviceData allOnline) = Some "online"
  ∧ (getAllDevicesStatus nullThenDown allOnline).2 = false
  ∧ status <$> lookupDevice "keystroke_injector"
                 (deviceData (getAllDevicesStatus nullThenDown allOnline).1)
    = Some "online"
  ∧ head (logs (getAllDevicesStatus nullThenDown allOnline).1)
    = Some {| timestamp := 5; message := "Failed to update device status";
              log_type := error; log_id := 5 |}.
Proof. repeat split. Qed.
